(** * RealFlight generic controller: channel vector, exchange cycle, telemetry

    A shallow embedding of [rflib/aircraft/generic_controller.py]
    (class [RealFlightGenericController]) and the properties of its
    motion-to-channel conversion, its exchange cycle and its telemetry log.

    Python floats are IEEE 754 binary64 values: they are modelled by Rocq's
    primitive floats, whose operations are the same binary64 operations. *)

From Stdlib Require Import Floats ZArith QArith List String Ascii Bool Lia.
From Stdlib Require Import DecimalString.
Import ListNotations.

Set Warnings "-inexact-float".

(** ** Numbers *)

(** The arithmetic the conversion uses: decimal literals, the four
    operations and [<]. *)
Class PyArith (F : Type) : Type := {
  lit  : Q -> F;
  fadd : F -> F -> F;
  fsub : F -> F -> F;
  fmul : F -> F -> F;
  fdiv : F -> F -> F;
  fltb : F -> F -> bool
}.

Arguments lit {F _} _%_Q.

Declare Scope py_scope.
Delimit Scope py_scope with py.
Infix "+" := fadd : py_scope.
Infix "-" := fsub : py_scope.
Infix "*" := fmul : py_scope.
Infix "/" := fdiv : py_scope.
Infix "<?" := fltb : py_scope.

(** An integer as a binary64 float (exact below 2^53, rounded above). *)
Definition float_of_Z (z : Z) : float :=
  match z with
  | Z0 => PrimFloat.of_uint63 (Uint63.of_Z 0)
  | Zpos _ => PrimFloat.of_uint63 (Uint63.of_Z z)
  | Zneg _ => PrimFloat.opp (PrimFloat.of_uint63 (Uint63.of_Z (Z.opp z)))
  end.

(** A decimal literal as the binary64 float nearest to it: numerator and
    denominator of the literals used here are small integers, exact as
    floats, and binary64 division rounds their quotient to nearest. *)
Definition float_of_Q (q : Q) : float :=
  PrimFloat.div (float_of_Z (Qnum q)) (float_of_Z (Zpos (Qden q))).

#[export] Instance binary64 : PyArith float := {
  lit  := float_of_Q;
  fadd := PrimFloat.add;
  fsub := PrimFloat.sub;
  fmul := PrimFloat.mul;
  fdiv := PrimFloat.div;
  fltb := PrimFloat.ltb
}.

(** A channel value is a Python number: the lists in the source hold float
    literals and the int literals [1] and [0]. *)
Inductive pynum : Type :=
| PyInt (z : Z)
| PyFloat (x : float).

(** Python's [==] between a float and an int compares the exact values. *)
Definition float_eqb_Z (x : float) (z : Z) : bool :=
  match Prim2SF x with
  | S754_zero _ => Z.eqb z 0
  | S754_finite s m e =>
      let v := if s then Z.neg m else Z.pos m in
      if Z.leb 0 e then Z.eqb z (v * 2 ^ e) else Z.eqb (z * 2 ^ (- e)) v
  | S754_infinity _ => false
  | S754_nan => false
  end.

(** [a == b] on numbers ([nan] differs from everything, [-0.0 == 0.0]). *)
Definition py_eqb (a b : pynum) : bool :=
  match a, b with
  | PyInt x, PyInt y => Z.eqb x y
  | PyFloat x, PyFloat y => PrimFloat.eqb x y
  | PyInt x, PyFloat y => float_eqb_Z y x
  | PyFloat x, PyInt y => float_eqb_Z x y
  end.

(** [a == b] on lists: same length and pairwise [==]. *)
Fixpoint list_eqb (a b : list pynum) : bool :=
  match a, b with
  | [], [] => true
  | x :: a', y :: b' => py_eqb x y && list_eqb a' b'
  | _, _ => false
  end.

(** ** Motion-to-channel arithmetic
    [convert_motion_in_channel_values], lines 275-281. *)
Section Sticks.
Context {F : Type} `{PyArith F}.
Local Open Scope py_scope.

Definition stick_values (velocity_x velocity_y velocity_z rate_yaw : F)
  : F * F * F * F :=
  let roll := lit 0.5 - (velocity_y * lit 3.6 / lit 9.5) / lit 2 in
  let pitch := lit 0.5 + (velocity_x * lit 3.6 / lit 9.5) / lit 2 in
  let throttle := lit 0.5 + (velocity_z * lit 3.6 / lit 13.5) / lit 2 in
  let throttle :=
    if velocity_z <? lit 0
    then lit 0.5 + (velocity_z * lit 3.6 / lit 7) / lit 2
    else throttle in
  let yaw := lit 0.5 + rate_yaw / lit 2 in
  (roll, pitch, throttle, yaw).
End Sticks.

(** The twelve channels assigned to [self.channel_values], lines 283-296. *)
Definition motion_channels (velocity_x velocity_y velocity_z rate_yaw : float)
  : list pynum :=
  let '(roll, pitch, throttle, yaw) :=
    stick_values velocity_x velocity_y velocity_z rate_yaw in
  [ PyFloat roll; PyFloat pitch; PyFloat throttle; PyFloat yaw;
    PyFloat 0.0; PyFloat 0.0; PyFloat 0.0; PyInt 1;
    PyFloat 0.0; PyFloat 0.0; PyFloat 0.0; PyFloat 0.0 ].

(** [self.channel_default], lines 50-63. *)
Definition channel_default_init : list pynum :=
  [ PyFloat 0.5; PyFloat 0.5; PyFloat 0.5; PyFloat 0.5;
    PyFloat 0.0; PyFloat 0.0; PyFloat 0.0; PyInt 1;
    PyFloat 0.0; PyFloat 0.0; PyFloat 0.0; PyFloat 0.0 ].

(** The vector [reset_aircraft] stores, line 161. *)
Definition startup_vector : list pynum :=
  [ PyFloat 0.5; PyFloat 0.5; PyInt 0; PyFloat 0.5;
    PyFloat 0.0; PyFloat 0.0; PyFloat 0.0; PyInt 1;
    PyFloat 0.0; PyFloat 0.0; PyFloat 0.0; PyFloat 0.0 ].


(** ** Exceptions, responses, telemetry *)

(** The Python exceptions the controller can meet.  [Empty] is [queue.Empty],
    the only one its handlers catch; [RequestException] stands for whatever
    [requests.post] raises (timeout, refused connection); [ValueError] is
    what [pandas.read_xml] raises on an element without children. *)
Inductive exn : Type :=
| Empty
| AttributeError
| KeyError
| TypeError
| IndexError
| RequestException
| ValueError.

(** A cell of the one-row frame [pandas.read_xml] builds: a number, or text
    that pandas left as a string.  An empty field is read as the number
    NaN. *)
Inductive cell : Type :=
| CNum (x : float)
| CStr (s : string).

(** The response bytes, seen through the two library calls that read them:
    [BeautifulSoup(...).find("m-aircraftState")] finds the element or
    returns [None], and [pandas.read_xml] turns the children of the element
    found into the columns of a one-row frame.  What else the two parsers
    may raise on bytes that are not such a document is outside the model. *)
Record soap_response : Type := {
  aircraftState : option (list (string * cell))
}.

(** What one call of [requests.post] does: raise, or return the content. *)
Inductive reply : Type :=
| Raises (e : exn)
| Returns (content : soap_response).

(** [round(x, ndigits)], kept as the library call it is. *)
Inductive rounded : Type :=
| Round (x : float) (ndigits : Z).

(** The row built at lines 241-256. *)
Record row : Type := {
  T : rounded;
  Airspeed : rounded;
  Aircraft_X : rounded;
  Aircraft_Y : rounded;
  Altitude_above_Ground : rounded;
  Roll : rounded;
  Pitch : rounded;
  Yaw : rounded;
  Flying : cell
}.

(** [self.telemetry]: the frame of the constructor (columns and one row of
    missing values, [index=[0]]), the frame without rows that
    [reset_aircraft] stores, or the row of the last exchange. *)
Inductive frame : Type :=
| BlankRow
| NoRows
| OneRow (r : row).

(** ** Requests *)

(** A request body is an f-string: literal text and formatted values. *)
Inductive piece : Type :=
| Text (s : string)
| Value (v : pynum).

Record request : Type := {
  header : list (string * string);
  body : list piece
}.

Inductive level : Type := DEBUG | INFO | ERROR.

(** ** The controller and the world it acts on *)

Record controller : Type := {
  realflight_url : string;
  channels : Z;
  channel_default : list pynum;
  channel_values : list pynum;
  max_velocity : float;
  telemetry : frame;
  start : float;
  (** requests handed to [requests.post], oldest first *)
  posted : list request;
  (** rows appended to the file [telemetry.log], oldest first *)
  telemetry_log : list row;
  (** calls of [logging], oldest first *)
  logged : list (level * string)
}.

Definition set_channel_values (v : list pynum) (s : controller) : controller :=
  {| realflight_url := realflight_url s; channels := channels s;
     channel_default := channel_default s; channel_values := v;
     max_velocity := max_velocity s; telemetry := telemetry s;
     start := start s; posted := posted s;
     telemetry_log := telemetry_log s; logged := logged s |}.

Definition set_telemetry (t : frame) (s : controller) : controller :=
  {| realflight_url := realflight_url s; channels := channels s;
     channel_default := channel_default s; channel_values := channel_values s;
     max_velocity := max_velocity s; telemetry := t;
     start := start s; posted := posted s;
     telemetry_log := telemetry_log s; logged := logged s |}.

Definition set_start (t : float) (s : controller) : controller :=
  {| realflight_url := realflight_url s; channels := channels s;
     channel_default := channel_default s; channel_values := channel_values s;
     max_velocity := max_velocity s; telemetry := telemetry s;
     start := t; posted := posted s;
     telemetry_log := telemetry_log s; logged := logged s |}.

Definition add_posted (r : request) (s : controller) : controller :=
  {| realflight_url := realflight_url s; channels := channels s;
     channel_default := channel_default s; channel_values := channel_values s;
     max_velocity := max_velocity s; telemetry := telemetry s;
     start := start s; posted := posted s ++ [r];
     telemetry_log := telemetry_log s; logged := logged s |}.

Definition to_csv (r : row) (s : controller) : controller :=
  {| realflight_url := realflight_url s; channels := channels s;
     channel_default := channel_default s; channel_values := channel_values s;
     max_velocity := max_velocity s; telemetry := telemetry s;
     start := start s; posted := posted s;
     telemetry_log := telemetry_log s ++ [r]; logged := logged s |}.

Definition add_logged (l : level) (msg : string) (s : controller) : controller :=
  {| realflight_url := realflight_url s; channels := channels s;
     channel_default := channel_default s; channel_values := channel_values s;
     max_velocity := max_velocity s; telemetry := telemetry s;
     start := start s; posted := posted s;
     telemetry_log := telemetry_log s; logged := logged s ++ [(l, msg)] |}.

(** ** State and exceptions
    A method runs on the controller and either returns or raises; either
    way the assignments made so far stay. *)
Inductive outcome (A : Type) : Type :=
| Return (a : A) (s : controller)
| Raise (e : exn) (s : controller).

Arguments Return {A} a s.
Arguments Raise {A} e s.

Definition M (A : Type) : Type := controller -> outcome A.

Definition ret {A : Type} (a : A) : M A := fun s => Return a s.

Definition bind {A B : Type} (m : M A) (k : A -> M B) : M B :=
  fun s =>
    match m s with
    | Return a s' => k a s'
    | Raise e s' => Raise e s'
    end.

Definition raise {A : Type} (e : exn) : M A := fun s => Raise e s.

Definition gets {A : Type} (f : controller -> A) : M A :=
  fun s => Return (f s) s.

Definition modify (f : controller -> controller) : M unit :=
  fun s => Return tt (f s).

(** [try: m  except Empty: h] *)
Definition try_except_Empty {A : Type} (m : M A) (h : M A) : M A :=
  fun s =>
    match m s with
    | Return a s' => Return a s'
    | Raise Empty s' => h s'
    | Raise e s' => Raise e s'
    end.

(** The controller an outcome leaves behind. *)
Definition final {A : Type} (o : outcome A) : controller :=
  match o with
  | Return _ s => s
  | Raise _ s => s
  end.

Declare Scope monad_scope.
Delimit Scope monad_scope with monad.
Notation "x <- m ;; k" := (bind m (fun x => k))
  (at level 61, m at next level, right associativity) : monad_scope.
Notation "m ;; k" := (bind m (fun _ => k))
  (at level 61, right associativity) : monad_scope.
Local Open Scope monad_scope.
Local Open Scope string_scope.

Definition logging (l : level) (msg : string) : M unit :=
  modify (add_logged l msg).

(** ** The methods of [RealFlightGenericController] *)

(** [__init__], with [now] the value of [time.time()].  [channel_values] is
    bound to the list [channel_default]; no method changes either list in
    place (every later assignment stores a new list), so the two fields are
    modelled as values. *)
Definition __init__ (link_uri : string) (max_velocity : float) (now : float)
  : controller :=
  {| realflight_url := link_uri;
     channels := 12;
     channel_default := channel_default_init;
     channel_values := channel_default_init;
     max_velocity := max_velocity;
     telemetry := BlankRow;
     start := now;
     posted := [];
     telemetry_log := [];
     logged := [] |}.

(** [post_soap_request]: the one place that reaches the network.  The
    request is counted as posted whether [requests.post] returns or raises. *)
Definition post_soap_request (header : list (string * string))
    (body : list piece) (r : reply) : M soap_response :=
  modify (add_posted {| header := header; body := body |}) ;;
  match r with
  | Raises e => raise e
  | Returns content => ret content
  end.

Definition envelope_open : string :=
  "<soap:Envelope xmlns:soap='http://schemas.xmlsoap.org/soap/envelope/' xmlns:xsd='http://www.w3.org/2001/XMLSchema' xmlns:xsi='http://www.w3.org/2001/XMLSchema-instance'>".

(** The body of [disable], [reset_aircraft] and [enable]: a backslash at
    the end of a line of the literal drops the line break and keeps the
    eight spaces that start the next line. *)
Definition lifecycle_body (operation : string) : list piece :=
  [ Text ("<?xml version='1.0' encoding='UTF-8'?>"
          ++ "        " ++ envelope_open
          ++ "        <soap:Body>"
          ++ "        <" ++ operation ++ "><a>1</a><b>2</b></" ++ operation ++ ">"
          ++ "        </soap:Body>"
          ++ "        </soap:Envelope>") ].

Definition disable (r : reply) : M soap_response :=
  let header :=
    [ ("content-type", "text/xml;charset='UTF-8'");
      ("soapaction", "RestoreOriginalControllerDevice");
      ("Connection", "Keep-Alive") ] in
  let body := lifecycle_body "RestoreOriginalControllerDevice" in
  message <- post_soap_request header body r ;;
  ret message.

Definition enable (r : reply) : M soap_response :=
  let header :=
    [ ("content-type", "text/xml;charset='UTF-8'");
      ("soapaction", "InjectUAVControllerInterface") ] in
  let body := lifecycle_body "InjectUAVControllerInterface" in
  message <- post_soap_request header body r ;;
  ret message.

(** [response_df.at[0, column]]: [KeyError] when the column is missing. *)
Fixpoint lookup {A : Type} (k : string) (l : list (string * A)) : option A :=
  match l with
  | [] => None
  | (k', v) :: l' => if String.eqb k' k then Some v else lookup k l'
  end.

Definition at_0 (df : list (string * cell)) (column : string) : M cell :=
  match lookup column df with
  | Some c => ret c
  | None => raise KeyError
  end.

(** [round(c, ndigits)]: a string has no [__round__], which is a
    [TypeError]. *)
Definition round (c : cell) (ndigits : Z) : M rounded :=
  match c with
  | CNum x => ret (Round x ndigits)
  | CStr _ => raise TypeError
  end.

(** [update_telemetry], lines 231-260.  [find] returns [None] when the
    response has no [m-aircraftState] element, and [None.prettify()] is an
    [AttributeError]; [pandas.read_xml] raises [ValueError] when the element
    found has no children to make columns of. *)
Definition update_telemetry (response : soap_response) (now : float)
  : M unit :=
  response_df <-
    match aircraftState response with
    | None => raise AttributeError
    | Some [] => raise ValueError
    | Some df => ret df
    end ;;
  start_ <- gets start ;;
  let T_ := PrimFloat.sub now start_ in
  let t := Round T_ 3 in
  airspeed <- (c <- at_0 response_df "m-airspeed-MPS" ;; round c 2) ;;
  x <- (c <- at_0 response_df "m-aircraftPositionX-MTR" ;; round c 2) ;;
  y <- (c <- at_0 response_df "m-aircraftPositionY-MTR" ;; round c 2) ;;
  agl <- (c <- at_0 response_df "m-altitudeAGL-MTR" ;; round c 2) ;;
  roll <- (c <- at_0 response_df "m-roll-DEG" ;; round c 2) ;;
  pitch <- (c <- at_0 response_df "m-inclination-DEG" ;; round c 2) ;;
  yaw <- (c <- at_0 response_df "m-azimuth-DEG" ;; round c 2) ;;
  flying <- at_0 response_df "m-currentAircraftStatus" ;;
  let row :=
    {| T := t; Airspeed := airspeed; Aircraft_X := x; Aircraft_Y := y;
       Altitude_above_Ground := agl; Roll := roll; Pitch := pitch;
       Yaw := yaw; Flying := flying |} in
  modify (set_telemetry (OneRow row)) ;;
  values <- gets channel_values ;;
  default <- gets channel_default ;;
  if negb (list_eqb values default)
  then modify (to_csv row)
  else ret tt.

(** The f-string of [update_rc_value], lines 197-219; an index past the end
    of [channel_values] is an [IndexError]. *)
Definition item (v : pynum) : list piece :=
  [ Text "        <item>"; Value v; Text "</item>" ].

(** The text before the items and the text after them. *)
Definition exchange_head : string :=
  "<?xml version='1.0' encoding='UTF-8'?>" ++ envelope_open
  ++ "        <soap:Body>"
  ++ "        <ExchangeData>"
  ++ "        <pControlInputs>"
  ++ "        <m-selectedChannels>4095</m-selectedChannels>"
  ++ "        <m-channelValues-0to1>".

Definition exchange_tail : string :=
  "        </m-channelValues-0to1>"
  ++ "        </pControlInputs>"
  ++ "        </ExchangeData>"
  ++ "        </soap:Body>"
  ++ "        </soap:Envelope>".

Definition exchange_body (channel_values : list pynum) : M (list piece) :=
  match channel_values with
  | v0 :: v1 :: v2 :: v3 :: v4 :: v5 :: v6 :: v7 :: v8 :: v9 :: v10 :: v11 :: _ =>
      ret ([ Text exchange_head ]
           ++ item v0 ++ item v1 ++ item v2 ++ item v3 ++ item v4 ++ item v5
           ++ item v6 ++ item v7 ++ item v8 ++ item v9 ++ item v10 ++ item v11
           ++ [ Text exchange_tail ])%list
  | _ => raise IndexError
  end.

(** [update_rc_value], lines 187-229: one exchange.  [r] is what the post
    does and [now] what [time.time()] returns in [update_telemetry]. *)
Definition update_rc_value (r : reply) (now : float) : M unit :=
  let header :=
    [ ("content-type", "text/xml;charset='UTF-8'");
      ("soapaction", "ExchangeData") ] in
  values <- gets channel_values ;;
  body <- exchange_body values ;;
  try_except_Empty
    (response <- post_soap_request header body r ;;
     update_telemetry response now)
    (logging ERROR
       "Could not update Channel Values. Please Correct Input. Error: %s").

(** [reset_aircraft], lines 142-163. *)
Definition reset_aircraft (r_reset : reply) (now_reset : float)
    (r_exchange : reply) (now_exchange : float) : M soap_response :=
  let header :=
    [ ("content-type", "text/xml;charset='UTF-8'");
      ("soapaction", "ResetAircraft") ] in
  let body := lifecycle_body "ResetAircraft" in
  message <- post_soap_request header body r_reset ;;
  modify (set_telemetry NoRows) ;;
  modify (set_start now_reset) ;;
  modify (set_channel_values startup_vector) ;;
  update_rc_value r_exchange now_exchange ;;
  ret message.

(** [convert_motion_in_channel_values], lines 262-298. *)
Definition convert_motion_in_channel_values
    (velocity_x velocity_y velocity_z rate_yaw : float)
    (r : reply) (now : float) : M unit :=
  modify (set_channel_values
            (motion_channels velocity_x velocity_y velocity_z rate_yaw)) ;;
  logging DEBUG "Channel Values: %s" ;;
  update_rc_value r now.

(** [__enter__], lines 88-99: returns [self] ([true] here), or [None] after
    the handler ran. *)
Definition __enter__ (r_enable r_reset : reply) (now_reset : float)
    (r_exchange : reply) (now_exchange : float)
    (r_prime : reply) (now_prime : float) : M bool :=
  try_except_Empty
    (logging INFO "Attempting connection" ;;
     enable r_enable ;;
     reset_aircraft r_reset now_reset r_exchange now_exchange ;;
     update_rc_value r_prime now_prime ;;
     ret true)
    (logging ERROR
       "Could not connect to RealFlight. Please Check if RealFlight is running. Error: %s" ;;
     ret false).

(** [__exit__], lines 101-110. *)
Definition __exit__ (r_reset : reply) (now_reset : float)
    (r_exchange : reply) (now_exchange : float) (r_disable : reply) : M unit :=
  try_except_Empty
    (logging DEBUG "attempting to close connection" ;;
     reset_aircraft r_reset now_reset r_exchange now_exchange ;;
     disable r_disable ;;
     ret tt)
    (logging ERROR
       "Could not reset Simulation. Please restart RealFlight manually. Erros: %s").

(** ** Histories *)

(** One use of the controller by its callers. *)
Inductive call : Type :=
| Enable (r : reply)
| Disable (r : reply)
| ResetAircraft (r_reset : reply) (now_reset : float)
    (r_exchange : reply) (now_exchange : float)
| UpdateRcValue (r : reply) (now : float)
| ConvertMotion (velocity_x velocity_y velocity_z rate_yaw : float)
    (r : reply) (now : float)
| Enter (r_enable r_reset : reply) (now_reset : float)
    (r_exchange : reply) (now_exchange : float)
    (r_prime : reply) (now_prime : float)
| Exit (r_reset : reply) (now_reset : float)
    (r_exchange : reply) (now_exchange : float) (r_disable : reply)
| SetStart (now : float).

Definition exec (c : call) : M unit :=
  match c with
  | Enable r => enable r ;; ret tt
  | Disable r => disable r ;; ret tt
  | ResetAircraft r1 t1 r2 t2 => reset_aircraft r1 t1 r2 t2 ;; ret tt
  | UpdateRcValue r t => update_rc_value r t
  | ConvertMotion vx vy vz yaw r t =>
      convert_motion_in_channel_values vx vy vz yaw r t
  | Enter r1 r2 t2 r3 t3 r4 t4 => __enter__ r1 r2 t2 r3 t3 r4 t4 ;; ret tt
  | Exit r1 t1 r2 t2 r3 => __exit__ r1 t1 r2 t2 r3
  | SetStart t => modify (set_start t)
  end.

(** The states a controller goes through: constructed, then used, each
    call leaving its state behind whether it returned or raised. *)
Inductive reachable : controller -> Prop :=
| reachable_init (link_uri : string) (max_velocity now : float) :
    reachable (__init__ link_uri max_velocity now)
| reachable_call (s : controller) (c : call) :
    reachable s -> reachable (final (exec c s)).

(** ** Exchange cycles *)

(** A response [update_telemetry] can turn into a row: the state element is
    there, the seven rounded columns are there and numeric, and the status
    column is there. *)
Definition numeric (df : list (string * cell)) (column : string) : bool :=
  match lookup column df with
  | Some (CNum _) => true
  | _ => false
  end.

Definition present (df : list (string * cell)) (column : string) : bool :=
  match lookup column df with
  | Some _ => true
  | None => false
  end.

Definition decodable (response : soap_response) : bool :=
  match aircraftState response with
  | None => false
  | Some df =>
      numeric df "m-airspeed-MPS" && numeric df "m-aircraftPositionX-MTR"
      && numeric df "m-aircraftPositionY-MTR" && numeric df "m-altitudeAGL-MTR"
      && numeric df "m-roll-DEG" && numeric df "m-inclination-DEG"
      && numeric df "m-azimuth-DEG" && present df "m-currentAircraftStatus"
  end.

(** One exchange cycle: a motion command, or a poll with the vector as it
    stands. *)
Inductive cycle : Type :=
| SetMotion (velocity_x velocity_y velocity_z rate_yaw : float)
| Poll.

Definition run_cycle (c : cycle) (response : soap_response) (now : float)
  : M unit :=
  match c with
  | SetMotion vx vy vz yaw =>
      convert_motion_in_channel_values vx vy vz yaw (Returns response) now
  | Poll => update_rc_value (Returns response) now
  end.

Fixpoint run_cycles (l : list (cycle * soap_response * float)) : M unit :=
  match l with
  | [] => ret tt
  | (c, response, now) :: l' => run_cycle c response now ;; run_cycles l'
  end.

(** The channel vector a cycle exchanges, [values] being the stored one. *)
Definition cycle_vector (values : list pynum) (c : cycle) : list pynum :=
  match c with
  | SetMotion vx vy vz yaw => motion_channels vx vy vz yaw
  | Poll => values
  end.

(** How many of the cycles exchange a vector that is not [==] to
    [default]. *)
Fixpoint active_cycles (default values : list pynum) (l : list cycle) : nat :=
  match l with
  | [] => 0
  | c :: l' =>
      let v := cycle_vector values c in
      ((if list_eqb v default then 0 else 1) + active_cycles default v l')%nat
  end.

(** ** Connection state *)

Definition soapaction (r : request) : option string :=
  lookup "soapaction" (header r).

(** Modelled from the spec: the Connection State of the Control Link.  The
    class keeps no such field; the state is read off the requests posted so
    far: Enabled after a takeover request, Disconnected at first and after a
    restore-original-controller request.  A request counts once it is
    posted, whether the transport then returned or raised: every state that
    is Disconnected here is Disconnected for the specification, which also
    keeps the link Disconnected after a takeover that failed. *)
Fixpoint link_enabled (enabled : bool) (l : list request) : bool :=
  match l with
  | [] => enabled
  | r :: l' =>
      let enabled' :=
        match soapaction r with
        | Some a =>
            if String.eqb a "InjectUAVControllerInterface" then true
            else if String.eqb a "RestoreOriginalControllerDevice" then false
            else enabled
        | None => enabled
        end in
      link_enabled enabled' l'
  end.

Definition Disconnected (s : controller) : Prop :=
  link_enabled false (posted s) = false.

(** ** The text of a request *)

(** No [<] in a text. *)
Fixpoint no_lt (s : string) : bool :=
  match s with
  | EmptyString => true
  | String c s' => negb (Ascii.eqb c "<") && no_lt s'
  end.

(** [s] without the prefix [p]. *)
Fixpoint strip_prefix (p s : string) : option string :=
  match p, s with
  | EmptyString, _ => Some s
  | String a p', String b s' =>
      if Ascii.eqb a b then strip_prefix p' s' else None
  | String _ _, EmptyString => None
  end.

(** The text up to the next [<], and what follows it. *)
Fixpoint text_before_tag (s : string) : string * string :=
  match s with
  | EmptyString => (EmptyString, EmptyString)
  | String c s' =>
      if Ascii.eqb c "<" then (EmptyString, s)
      else let (t, rest) := text_before_tag s' in (String c t, rest)
  end.

Definition is_prefix (p s : string) : bool :=
  match strip_prefix p s with
  | Some _ => true
  | None => false
  end.

(** [p] and [t] differ at a position both have: [p] is no prefix of [t]
    followed by anything. *)
Fixpoint clash (p t : string) : bool :=
  match p, t with
  | String a p', String b t' => if Ascii.eqb a b then clash p' t' else true
  | _, _ => false
  end.

(** No [<item>] starts inside [t], whatever follows [t]. *)
Fixpoint item_free (t : string) : bool :=
  match t with
  | EmptyString => true
  | String _ t' => clash "<item>" t && item_free t'
  end.

(** Modelled from the spec: re-parsing the ordered channel-value list of a
    request (the simulator does it, not this repository): the texts of the
    [<item>...</item>] elements of the body, in the order they occur. *)
Fixpoint channel_items (s : string) : list string :=
  match s with
  | EmptyString => []
  | String _ s' =>
      match strip_prefix "<item>" s with
      | Some rest =>
          let (t, after) := text_before_tag rest in
          if is_prefix "</item>" after then t :: channel_items s'
          else channel_items s'
      | None => channel_items s'
      end
  end.

(** All of a list of optional values, or nothing. *)
Fixpoint all_some {A : Type} (l : list (option A)) : option (list A) :=
  match l with
  | [] => Some []
  | Some a :: l' =>
      match all_some l' with
      | Some r => Some (a :: r)
      | None => None
      end
  | None :: _ => None
  end.

Section RequestText.
(** [str] of a float and the reading of a number are Python's and the
    simulator's; they are parameters here. *)
Variable float_repr : float -> string.
Variable parse_number : string -> option pynum.

(** [str(v)], as the f-string formats a value. *)
Definition py_str (v : pynum) : string :=
  match v with
  | PyInt z => DecimalString.NilZero.string_of_int (Z.to_int z)
  | PyFloat x => float_repr x
  end.

Definition piece_text (p : piece) : string :=
  match p with
  | Text s => s
  | Value v => py_str v
  end.

(** The request body as the string that is posted. *)
Fixpoint render (body : list piece) : string :=
  match body with
  | [] => EmptyString
  | p :: body' => piece_text p ++ render body'
  end.

Definition parse_channel_list (s : string) : option (list pynum) :=
  all_some (map parse_number (channel_items s)).
End RequestText.

(** A formatting of the floats of the neutral and startup vectors, and a
    reader of what it writes: Python prints [0.5], [0.0] and the int [1]
    this way. *)
Definition sample_repr (x : float) : string :=
  if PrimFloat.eqb x 0.5 then "0.5"
  else if PrimFloat.eqb x 0 then "0.0"
  else "nan".

Definition sample_parse (s : string) : option pynum :=
  if String.eqb s "0.5" then Some (PyFloat 0.5)
  else if String.eqb s "0.0" then Some (PyFloat 0)
  else if String.eqb s "1" then Some (PyInt 1)
  else if String.eqb s "0" then Some (PyInt 0)
  else None.

(** ** Sample responses *)

Definition sample_state : list (string * cell) :=
  [ ("m-airspeed-MPS", CNum 0);
    ("m-altitudeAGL-MTR", CNum 0.25);
    ("m-aircraftPositionX-MTR", CNum 1.5);
    ("m-aircraftPositionY-MTR", CNum 2);
    ("m-roll-DEG", CNum 0);
    ("m-inclination-DEG", CNum 0);
    ("m-azimuth-DEG", CNum 90);
    ("m-currentAircraftStatus", CStr "CAS-WAITING") ].

Definition good_response : soap_response :=
  {| aircraftState := Some sample_state |}.

(** A response without the aircraft-state element. *)
Definition stateless_response : soap_response :=
  {| aircraftState := None |}.

(** A response whose airspeed is not a number. *)
Definition garbled_response : soap_response :=
  {| aircraftState :=
       Some (("m-airspeed-MPS", CStr "fast") :: sample_state) |}.

Definition fresh : controller := __init__ "http://127.0.0.1:18083" 1 100.

(** A response whose aircraft-state element has no children. *)
Definition childless_response : soap_response :=
  {| aircraftState := Some [] |}.

(** A response whose airspeed field is empty: pandas reads it as NaN. *)
Definition nan_response : soap_response :=
  {| aircraftState :=
       Some [ ("m-airspeed-MPS", CNum nan);
              ("m-altitudeAGL-MTR", CNum 0.25);
              ("m-aircraftPositionX-MTR", CNum 1.5);
              ("m-aircraftPositionY-MTR", CNum 2);
              ("m-roll-DEG", CNum 0);
              ("m-inclination-DEG", CNum 0);
              ("m-azimuth-DEG", CNum 90);
              ("m-currentAircraftStatus", CStr "CAS-WAITING") ] |}.

(** The controller after [update_telemetry] decoded [r]: the record is
    stored, and appended to the log unless the vector is [==] to the
    default. *)
Definition recorded (r : row) (s : controller) : controller :=
  if list_eqb (channel_values s) (channel_default s)
  then set_telemetry (OneRow r) s
  else to_csv r (set_telemetry (OneRow r) s).

(** ** The conversion as the specification words it *)

(** The scale factors of the specification, computed first. *)
Definition scale_forward : float := 3.6 / 9.5.
Definition scale_lateral : float := 3.6 / 9.5.
Definition scale_ascend : float := 3.6 / 13.5.
Definition scale_descend : float := 3.6 / 7.

(** Roll, pitch, throttle and yaw as section 4.1 of the specification
    writes them: the velocity times a scale factor. *)
Definition spec_sticks (forward lateral vertical yaw_rate : float)
  : float * float * float * float :=
  (0.5 - (lateral * scale_lateral) / 2,
   0.5 + (forward * scale_forward) / 2,
   (if 0 <=? vertical
    then 0.5 + (vertical * scale_ascend) / 2
    else 0.5 + (vertical * scale_descend) / 2),
   0.5 + yaw_rate / 2)%float.

(** The eight channels after the sticks as the specification words them:
    four zeros, the flight mode 1, three zeros. *)
Definition worded_fixed_channels : list pynum :=
  [ PyFloat 0; PyFloat 0; PyFloat 0; PyFloat 0; PyInt 1;
    PyFloat 0; PyFloat 0; PyFloat 0 ].

(** ** Properties kept by a method *)

(** [m] keeps [Q]: from a controller with [Q], the controller it leaves
    has [Q], whether it returns or raises. *)
Definition keeps {A : Type} (Q : controller -> Prop) (m : M A) : Prop :=
  forall s, Q s -> Q (final (m s)).

(** The fixed header of an exchange request. *)
Definition exchange_header : list (string * string) :=
  [ ("content-type", "text/xml;charset='UTF-8'");
    ("soapaction", "ExchangeData") ].

(** The line [update_rc_value] logs when it catches [Empty]. *)
Definition exchange_error_message : string :=
  "Could not update Channel Values. Please Correct Input. Error: %s".

(** All eight columns are there. *)
Definition complete (df : list (string * cell)) : bool :=
  present df "m-airspeed-MPS" && present df "m-aircraftPositionX-MTR"
  && present df "m-aircraftPositionY-MTR" && present df "m-altitudeAGL-MTR"
  && present df "m-roll-DEG" && present df "m-inclination-DEG"
  && present df "m-azimuth-DEG" && present df "m-currentAircraftStatus".

(** The controller after an exchange that returned [row]: the request is
    posted, the row stored, and appended to the log unless the vector is
    [==] to the default. *)
Definition exchanged (b : list piece) (r : row) (s : controller) : controller :=
  let s' := set_telemetry (OneRow r)
              (add_posted {| header := exchange_header; body := b |} s) in
  if list_eqb (channel_values s) (channel_default s) then s' else to_csv r s'.

(** The cycles of a run, without their responses. *)
Definition cycles_of (l : list (cycle * soap_response * float)) : list cycle :=
  map (fun x => fst (fst x)) l.

Definition responses_of (l : list (cycle * soap_response * float))
  : list soap_response :=
  map (fun x => snd (fst x)) l.

(** The vector stored after the cycles [l], [values] being stored before. *)
Fixpoint last_vector (values : list pynum) (l : list cycle) : list pynum :=
  match l with
  | [] => values
  | c :: l' => last_vector (cycle_vector values c) l'
  end.

(** The request [reset_aircraft] posts. *)
Definition reset_request : request :=
  {| header := [ ("content-type", "text/xml;charset='UTF-8'");
                 ("soapaction", "ResetAircraft") ];
     body := lifecycle_body "ResetAircraft" |}.

(** The controller [reset_aircraft] hands to its exchange. *)
Definition reset_state (now : float) (s : controller) : controller :=
  set_channel_values startup_vector
    (set_start now (set_telemetry NoRows (add_posted reset_request s))).

(** Four cycles: a forward command, a zero command, a poll, a descent. *)
Definition sample_run : list (cycle * soap_response * float) :=
  [ (SetMotion 1 0 0 0, good_response, 101%float);
    (SetMotion 0 0 0 0, good_response, 102%float);
    (Poll, good_response, 103%float);
    (SetMotion 0 0 (-1) 0, good_response, 104%float) ].

(** Polls, one per response. *)
Definition polls (l : list (soap_response * float))
  : list (cycle * soap_response * float) :=
  map (fun x => (Poll, fst x, snd x)) l.

(** The shape every stored channel vector has. *)
Definition well_formed (v : list pynum) : Prop :=
  List.length v = 12%nat /\ nth_error v 7 = Some (PyInt 1).

(** A property that reads the controller only through fields a method never
    assigns is kept by it.  [Stable Q] says which setters leave [Q] alone. *)
Record Stable (Q : controller -> Prop) : Prop := {
  stable_posted : forall r s, Q s -> Q (add_posted r s);
  stable_logged : forall l msg s, Q s -> Q (add_logged l msg s);
  stable_telemetry : forall t s, Q s -> Q (set_telemetry t s);
  stable_to_csv : forall r s, Q s -> Q (to_csv r s)
}.

(** What every reachable controller satisfies. *)
Definition channel_inv (s : controller) : Prop :=
  well_formed (channel_values s) /\ channel_default s = channel_default_init.

(** ** Requests of the life cycle *)

(** The request [enable] posts. *)
Definition enable_request : request :=
  {| header := [ ("content-type", "text/xml;charset='UTF-8'");
                 ("soapaction", "InjectUAVControllerInterface") ];
     body := lifecycle_body "InjectUAVControllerInterface" |}.

(** The request [disable] posts. *)
Definition disable_request : request :=
  {| header := [ ("content-type", "text/xml;charset='UTF-8'");
                 ("soapaction", "RestoreOriginalControllerDevice");
                 ("Connection", "Keep-Alive") ];
     body := lifecycle_body "RestoreOriginalControllerDevice" |}.

(** The four operations the class names in a [soapaction] header. *)
Definition operations : list string :=
  [ "RestoreOriginalControllerDevice"; "ResetAircraft";
    "InjectUAVControllerInterface"; "ExchangeData" ].

(** A request as the class builds them: XML content type and one of the
    four operations. *)
Definition class_request (r : request) : bool :=
  match lookup "content-type" (header r), soapaction r with
  | Some t, Some a =>
      String.eqb t "text/xml;charset='UTF-8'"
      && existsb (String.eqb a) operations
  | _, _ => false
  end.

(** The lines [__enter__] and [__exit__] log when they catch [Empty]. *)
Definition enter_error_message : string :=
  "Could not connect to RealFlight. Please Check if RealFlight is running. Error: %s".

Definition exit_error_message : string :=
  "Could not reset Simulation. Please restart RealFlight manually. Erros: %s".

(** None of the seven rounded columns holds text. *)
Definition not_text (df : list (string * cell)) (column : string) : bool :=
  match lookup column df with
  | Some (CStr _) => false
  | _ => true
  end.

Definition no_text (df : list (string * cell)) : bool :=
  not_text df "m-airspeed-MPS" && not_text df "m-aircraftPositionX-MTR"
  && not_text df "m-aircraftPositionY-MTR" && not_text df "m-altitudeAGL-MTR"
  && not_text df "m-roll-DEG" && not_text df "m-inclination-DEG"
  && not_text df "m-azimuth-DEG".

(** A property kept by every setter, and by the posting of the requests
    that satisfy [P]. *)
Record StableFor (P : request -> Prop) (Q : controller -> Prop) : Prop := {
  for_posted : forall r s, P r -> Q s -> Q (add_posted r s);
  for_logged : forall l msg s, Q s -> Q (add_logged l msg s);
  for_telemetry : forall t s, Q s -> Q (set_telemetry t s);
  for_to_csv : forall r s, Q s -> Q (to_csv r s);
  for_start : forall t s, Q s -> Q (set_start t s);
  for_values : forall v s, Q s -> Q (set_channel_values v s)
}.

(** A controller whose stored vector is too short for an exchange. *)
Definition short_vector : controller :=
  set_channel_values [ PyFloat 0.5; PyFloat 0.5; PyFloat 0.5 ] fresh.

(* ------------------------------------------------------------------ *)
(** * Properties *)

Lemma lit_binary64 :
  lit 0.5 = 0.5%float /\ lit 3.6 = 3.6%float /\ lit 9.5 = 9.5%float /\
  lit 13.5 = 13.5%float /\ lit 7 = 7%float /\ lit 2 = 2%float /\
  lit 0 = 0%float.
Proof. repeat split; reflexivity. Qed.

Lemma stick_values_binary64 (vx vy vz yaw : float) :
  stick_values vx vy vz yaw =
  ((0.5 - (vy * 3.6 / 9.5) / 2)%float,
   (0.5 + (vx * 3.6 / 9.5) / 2)%float,
   (if (vz <? 0)%float then (0.5 + (vz * 3.6 / 7) / 2)%float
    else (0.5 + (vz * 3.6 / 13.5) / 2)%float),
   (0.5 + yaw / 2)%float).
Proof. reflexivity. Qed.

(** ** The monad *)

Lemma keeps_ret {A : Type} (Q : controller -> Prop) (a : A) : keeps Q (ret a).
Proof. intros s Hs. exact Hs. Qed.

Lemma keeps_raise {A : Type} (Q : controller -> Prop) (e : exn) :
  keeps Q (@raise A e).
Proof. intros s Hs. exact Hs. Qed.

Lemma keeps_gets {A : Type} (Q : controller -> Prop) (f : controller -> A) :
  keeps Q (gets f).
Proof. intros s Hs. exact Hs. Qed.

Lemma keeps_modify (Q : controller -> Prop) (f : controller -> controller) :
  (forall s, Q s -> Q (f s)) -> keeps Q (modify f).
Proof. intros Hf s Hs. apply Hf, Hs. Qed.

Lemma keeps_bind {A B : Type} (Q : controller -> Prop) (m : M A) (k : A -> M B) :
  keeps Q m -> (forall a, keeps Q (k a)) -> keeps Q (bind m k).
Proof.
  intros Hm Hk s Hs. unfold bind.
  specialize (Hm s Hs). destruct (m s) as [a s'|e s']; simpl in *.
  - apply Hk, Hm.
  - exact Hm.
Qed.

Lemma keeps_try {A : Type} (Q : controller -> Prop) (m h : M A) :
  keeps Q m -> keeps Q h -> keeps Q (try_except_Empty m h).
Proof.
  intros Hm Hh s Hs. unfold try_except_Empty.
  specialize (Hm s Hs). destruct (m s) as [a s'|e s']; simpl in *.
  - exact Hm.
  - destruct e; simpl; try exact Hm. apply Hh, Hm.
Qed.

Ltac keeps_steps :=
  repeat match goal with
    | |- keeps _ (bind _ _) => apply keeps_bind; [| intro]
    | |- keeps _ (try_except_Empty _ _) => apply keeps_try
    | |- keeps _ (ret _) => apply keeps_ret
    | |- keeps _ (raise _) => apply keeps_raise
    | |- keeps _ (gets _) => apply keeps_gets
    | |- keeps _ (match ?x with _ => _ end) => destruct x
    end.

Lemma keeps_logging (Q : controller -> Prop) (l : level) (msg : string) :
  Stable Q -> keeps Q (logging l msg).
Proof. intros [? ? ? ?]. apply keeps_modify. auto. Qed.

Lemma keeps_post (Q : controller -> Prop) h b r :
  Stable Q -> keeps Q (post_soap_request h b r).
Proof.
  intros [? ? ? ?]. unfold post_soap_request.
  keeps_steps. apply keeps_modify. auto.
Qed.

Lemma keeps_enable (Q : controller -> Prop) r : Stable Q -> keeps Q (enable r).
Proof. intros HQ. unfold enable. keeps_steps. apply keeps_post, HQ. Qed.

Lemma keeps_disable (Q : controller -> Prop) r : Stable Q -> keeps Q (disable r).
Proof. intros HQ. unfold disable. keeps_steps. apply keeps_post, HQ. Qed.

Lemma keeps_at_0 (Q : controller -> Prop) df column : keeps Q (at_0 df column).
Proof. unfold at_0. keeps_steps. Qed.

Lemma keeps_round (Q : controller -> Prop) c n : keeps Q (round c n).
Proof. unfold round. keeps_steps. Qed.

Lemma keeps_update_telemetry (Q : controller -> Prop) response now :
  Stable Q -> keeps Q (update_telemetry response now).
Proof.
  intros [? ? ? ?]. unfold update_telemetry.
  keeps_steps;
    try apply keeps_at_0; try apply keeps_round;
    try (apply keeps_modify; auto).
Qed.

Lemma keeps_exchange_body (Q : controller -> Prop) v : keeps Q (exchange_body v).
Proof. intros s Hs. unfold exchange_body. do 12 (destruct v as [|? v]; [exact Hs|]). exact Hs. Qed.

Lemma keeps_update_rc_value (Q : controller -> Prop) r now :
  Stable Q -> keeps Q (update_rc_value r now).
Proof.
  intros HQ. unfold update_rc_value.
  keeps_steps.
  - apply keeps_exchange_body.
  - apply keeps_post, HQ.
  - apply keeps_update_telemetry, HQ.
  - apply keeps_logging, HQ.
Qed.

Lemma keeps_reset_aircraft (Q : controller -> Prop) r1 t1 r2 t2 :
  Stable Q ->
  (forall t s, Q s -> Q (set_start t s)) ->
  (forall s, Q s -> Q (set_channel_values startup_vector s)) ->
  keeps Q (reset_aircraft r1 t1 r2 t2).
Proof.
  intros HQ Hstart Hvalues. unfold reset_aircraft.
  keeps_steps.
  - apply keeps_post, HQ.
  - apply keeps_modify. intros s. apply (stable_telemetry Q HQ).
  - apply keeps_modify, Hstart.
  - apply keeps_modify, Hvalues.
  - apply keeps_update_rc_value, HQ.
Qed.

Lemma keeps_convert (Q : controller -> Prop) vx vy vz yaw r now :
  Stable Q ->
  (forall s, Q s -> Q (set_channel_values (motion_channels vx vy vz yaw) s)) ->
  keeps Q (convert_motion_in_channel_values vx vy vz yaw r now).
Proof.
  intros HQ Hvalues. unfold convert_motion_in_channel_values.
  keeps_steps.
  - apply keeps_modify, Hvalues.
  - apply keeps_logging, HQ.
  - apply keeps_update_rc_value, HQ.
Qed.

Lemma keeps_enter (Q : controller -> Prop) r1 r2 t2 r3 t3 r4 t4 :
  Stable Q ->
  (forall t s, Q s -> Q (set_start t s)) ->
  (forall s, Q s -> Q (set_channel_values startup_vector s)) ->
  keeps Q (__enter__ r1 r2 t2 r3 t3 r4 t4).
Proof.
  intros HQ Hstart Hvalues. unfold __enter__.
  keeps_steps;
    try (apply keeps_logging, HQ).
  - apply keeps_enable, HQ.
  - apply keeps_reset_aircraft; assumption.
  - apply keeps_update_rc_value, HQ.
Qed.

Lemma keeps_exit (Q : controller -> Prop) r1 t1 r2 t2 r3 :
  Stable Q ->
  (forall t s, Q s -> Q (set_start t s)) ->
  (forall s, Q s -> Q (set_channel_values startup_vector s)) ->
  keeps Q (__exit__ r1 t1 r2 t2 r3).
Proof.
  intros HQ Hstart Hvalues. unfold __exit__.
  keeps_steps;
    try (apply keeps_logging, HQ).
  - apply keeps_reset_aircraft; assumption.
  - apply keeps_disable, HQ.
Qed.

(** Every call keeps a property that no setter breaks. *)
Lemma keeps_exec (Q : controller -> Prop) (c : call) :
  Stable Q ->
  (forall t s, Q s -> Q (set_start t s)) ->
  (forall s, Q s -> Q (set_channel_values startup_vector s)) ->
  (forall vx vy vz yaw s,
      Q s -> Q (set_channel_values (motion_channels vx vy vz yaw) s)) ->
  keeps Q (exec c).
Proof.
  intros HQ Hstart Hstartup Hmotion.
  destruct c; unfold exec; keeps_steps.
  - apply keeps_enable, HQ.
  - apply keeps_disable, HQ.
  - apply keeps_reset_aircraft; assumption.
  - apply keeps_update_rc_value, HQ.
  - apply keeps_convert; auto.
  - apply keeps_enter; assumption.
  - apply keeps_exit; assumption.
  - apply keeps_modify, Hstart.
Qed.

(** ** The channel vector of a reachable controller *)

Lemma channel_inv_stable : Stable channel_inv.
Proof. split; intros; assumption. Qed.

Lemma motion_channels_well_formed vx vy vz yaw :
  well_formed (motion_channels vx vy vz yaw).
Proof. split; reflexivity. Qed.

Lemma reachable_channel_inv (s : controller) : reachable s -> channel_inv s.
Proof.
  induction 1 as [uri mv now | s c Hs IH].
  - repeat split.
  - apply keeps_exec; trivial.
    + apply channel_inv_stable.
    + intros s' [_ Hd]. repeat split. exact Hd.
    + intros vx vy vz yaw s' [_ Hd]. split.
      * apply motion_channels_well_formed.
      * exact Hd.
Qed.

(** C9. In every reachable state of the controller (after construction,
    after every reset, after every motion conversion and after any other
    call, returned or raised) the channel vector has exactly 12 elements
    and its element at index 7, the flight mode, is the int 1. *)
Theorem channel_vector_shape (s : controller) :
  reachable s ->
  List.length (channel_values s) = 12%nat
  /\ nth_error (channel_values s) 7 = Some (PyInt 1).
Proof.
  intros Hs. destruct (reachable_channel_inv s Hs) as [Hwf _]. exact Hwf.
Qed.

Lemma channel_vector_shape_witness :
  let s := final (exec (ConvertMotion 1 0 (-2) 0.25 (Raises RequestException) 101)
             (final (exec (ResetAircraft (Returns good_response) 100.5
                             (Returns stateless_response) 100.75) fresh))) in
  reachable s
  /\ List.length (channel_values s) = 12%nat
  /\ nth_error (channel_values s) 7 = Some (PyInt 1).
Proof.
  intros s.
  assert (Hs : reachable s).
  { unfold s. apply reachable_call, reachable_call. apply reachable_init. }
  split; [exact Hs | exact (channel_vector_shape s Hs)].
Defined.

(** ** What a motion command stores and posts *)

Lemma convert_unfold vx vy vz yaw r now s :
  convert_motion_in_channel_values vx vy vz yaw r now s
  = (logging DEBUG "Channel Values: %s" ;; update_rc_value r now)
      (set_channel_values (motion_channels vx vy vz yaw) s).
Proof. reflexivity. Qed.

Lemma convert_as_exchange vx vy vz yaw r now s :
  convert_motion_in_channel_values vx vy vz yaw r now s
  = update_rc_value r now
      (add_logged DEBUG "Channel Values: %s"
         (set_channel_values (motion_channels vx vy vz yaw) s)).
Proof. reflexivity. Qed.

Lemma stable_channel_values v : Stable (fun s => channel_values s = v).
Proof. split; intros; assumption. Qed.

Lemma stable_channel_default v : Stable (fun s => channel_default s = v).
Proof. split; intros; assumption. Qed.

Lemma stable_start t : Stable (fun s => start s = t).
Proof. split; intros; assumption. Qed.

Lemma convert_stores vx vy vz yaw r now s :
  channel_values (final (convert_motion_in_channel_values vx vy vz yaw r now s))
  = motion_channels vx vy vz yaw.
Proof.
  rewrite convert_unfold.
  apply (keeps_bind (fun s' => channel_values s' = motion_channels vx vy vz yaw)).
  - apply keeps_logging, stable_channel_values.
  - intros _. apply keeps_update_rc_value, stable_channel_values.
  - reflexivity.
Qed.

(** ** The conversion *)

(** C7. The conversion of the all-zero motion intent is exactly the neutral
    vector [0.5, 0.5, 0.5, 0.5, 0, 0, 0, 1, 0, 0, 0, 0] held by
    [channel_default], and that is what the method stores. *)
Theorem zero_intent_is_neutral :
  motion_channels 0 0 0 0 = channel_default_init
  /\ channel_default_init =
       [ PyFloat 0.5; PyFloat 0.5; PyFloat 0.5; PyFloat 0.5;
         PyFloat 0; PyFloat 0; PyFloat 0; PyInt 1;
         PyFloat 0; PyFloat 0; PyFloat 0; PyFloat 0 ]
  /\ list_eqb (motion_channels 0 0 0 0) channel_default_init = true
  /\ forall r now s,
       channel_values (final (convert_motion_in_channel_values 0 0 0 0 r now s))
       = channel_default_init.
Proof.
  split; [reflexivity|]. split; [reflexivity|]. split; [reflexivity|].
  intros r now s. rewrite convert_stores. reflexivity.
Qed.

(** C3, as stated, fails.  The eight channels after the sticks are three
    zeros, the flight mode 1 at index 7 and four zeros, not four zeros, the
    flight mode and three zeros: index 7 holds the 1 and index 8 a zero.
    And the sticks are computed by multiplying the velocity by 3.6 and then
    dividing, which in binary64 is not always the velocity times a scale
    factor computed first: forward velocity 2.5 and vertical velocity -0.7
    give another pitch and another throttle. *)
Lemma conversion_formulas_counterexample :
  skipn 4 (motion_channels 1 0 0 0)
  = [ PyFloat 0; PyFloat 0; PyFloat 0; PyInt 1;
      PyFloat 0; PyFloat 0; PyFloat 0; PyFloat 0 ]
  /\ list_eqb (skipn 4 (motion_channels 1 0 0 0)) worded_fixed_channels = false
  /\ nth_error (motion_channels 1 0 0 0) 7 = Some (PyInt 1)
  /\ nth_error (motion_channels 1 0 0 0) 8 = Some (PyFloat 0)
  /\ nth_error worded_fixed_channels (7 - 4) = Some (PyFloat 0)
  /\ nth_error worded_fixed_channels (8 - 4) = Some (PyInt 1)
  /\ (let '(_, pitch, throttle, _) := stick_values 2.5 0 (-0.7) 0 in
      let '(_, pitch', throttle', _) := spec_sticks 2.5 0 (-0.7) 0 in
      PrimFloat.eqb pitch pitch' = false
      /\ PrimFloat.eqb throttle throttle' = false)%float.
Proof. repeat split. Qed.

(** C3, amended. For every motion intent the conversion gives, in binary64
    and in the order the source writes the operations, roll
    0.5 - (lateral * 3.6 / 9.5) / 2, pitch 0.5 + (forward * 3.6 / 9.5) / 2,
    throttle 0.5 + (vertical * 3.6 / 7) / 2 when vertical < 0 and
    0.5 + (vertical * 3.6 / 13.5) / 2 otherwise, yaw 0.5 + yaw_rate / 2; the
    other eight channels are three zeros at indices 4 to 6, the flight mode
    1 at index 7 and four zeros at indices 8 to 11.  Forward velocity 1.0
    with the rest zero gives pitch within 0.0005 of 0.689 and leaves roll,
    throttle and yaw at exactly 0.5; there the formulas with the scale
    factors give the same four values. *)
Theorem conversion_formulas :
  (forall vx vy vz yaw : float,
      motion_channels vx vy vz yaw =
      [ PyFloat (0.5 - (vy * 3.6 / 9.5) / 2);
        PyFloat (0.5 + (vx * 3.6 / 9.5) / 2);
        PyFloat (if (vz <? 0) then 0.5 + (vz * 3.6 / 7) / 2
                 else 0.5 + (vz * 3.6 / 13.5) / 2);
        PyFloat (0.5 + yaw / 2);
        PyFloat 0; PyFloat 0; PyFloat 0; PyInt 1;
        PyFloat 0; PyFloat 0; PyFloat 0; PyFloat 0 ]%float)
  /\ (forall vx vy vz yaw : float,
      nth_error (motion_channels vx vy vz yaw) 7 = Some (PyInt 1)
      /\ forall i, (4 <= i < 12)%nat -> i <> 7%nat ->
           nth_error (motion_channels vx vy vz yaw) i = Some (PyFloat 0))
  /\ (exists pitch : float,
      motion_channels 1 0 0 0 =
      [ PyFloat 0.5; PyFloat pitch; PyFloat 0.5; PyFloat 0.5;
        PyFloat 0; PyFloat 0; PyFloat 0; PyInt 1;
        PyFloat 0; PyFloat 0; PyFloat 0; PyFloat 0 ]
      /\ (0.6885 <? pitch)%float = true /\ (pitch <? 0.6895)%float = true
      /\ spec_sticks 1 0 0 0 = (0.5, pitch, 0.5, 0.5)%float).
Proof.
  assert (Hall : forall vx vy vz yaw : float,
      motion_channels vx vy vz yaw =
      [ PyFloat (0.5 - (vy * 3.6 / 9.5) / 2);
        PyFloat (0.5 + (vx * 3.6 / 9.5) / 2);
        PyFloat (if (vz <? 0) then 0.5 + (vz * 3.6 / 7) / 2
                 else 0.5 + (vz * 3.6 / 13.5) / 2);
        PyFloat (0.5 + yaw / 2);
        PyFloat 0; PyFloat 0; PyFloat 0; PyInt 1;
        PyFloat 0; PyFloat 0; PyFloat 0; PyFloat 0 ]%float).
  { intros vx vy vz yaw. unfold motion_channels.
    rewrite stick_values_binary64. reflexivity. }
  split; [exact Hall|]. split.
  - intros vx vy vz yaw. rewrite Hall. split; [reflexivity|].
    intros i [Hlo Hhi] H7.
    do 4 (destruct i as [|i]; [lia|]).
    do 3 (destruct i as [|i]; [reflexivity|]).
    destruct i as [|i]; [contradiction H7; reflexivity|].
    do 4 (destruct i as [|i]; [reflexivity|]). lia.
  - eexists. split; [reflexivity|]. repeat split.
Qed.

(** ** Decoding a response *)

Ltac split_andb :=
  repeat match goal with
    | H : (_ && _)%bool = true |- _ =>
        apply andb_prop in H; destruct H
    end.

Ltac open_decoder :=
  unfold update_telemetry, bind, at_0, round, gets, modify, ret, raise.

Lemma match_nonempty {A B : Type} (l : list A) (x y : B) :
  l <> [] -> match l with [] => x | _ :: _ => y end = y.
Proof. destruct l; [intros H; contradiction H; reflexivity | reflexivity]. Qed.

Lemma lookup_nonempty {A : Type} c (df : list (string * A)) v :
  lookup c df = Some v -> df <> [].
Proof. intros H ->. discriminate H. Qed.

Lemma numeric_nonempty df c : numeric df c = true -> df <> [].
Proof. intros H ->. discriminate H. Qed.

Lemma present_nonempty df c : present df c = true -> df <> [].
Proof. intros H ->. discriminate H. Qed.

(** The record a decodable response becomes; it is stored, and appended to
    the log unless the stored channel vector is [==] to the default. *)
Lemma update_telemetry_decodable response now s :
  decodable response = true ->
  exists row,
    update_telemetry response now s
    = Return tt
        (if list_eqb (channel_values s) (channel_default s)
         then set_telemetry (OneRow row) s
         else to_csv row (set_telemetry (OneRow row) s)).
Proof.
  unfold decodable. intros H. open_decoder.
  destruct (aircraftState response) as [df|]; [|discriminate H].
  split_andb.
  rewrite match_nonempty by (eapply present_nonempty; eassumption).
  unfold numeric, present in *.
  repeat match goal with
    | H : match lookup ?c df with _ => _ end = true |- _ =>
        destruct (lookup c df) as [[?|?]|]; try discriminate H; clear H
    end.
  all: eexists; simpl;
    destruct (list_eqb (channel_values s) (channel_default s)); reflexivity.
Qed.

Lemma update_telemetry_absent response now s :
  aircraftState response = None ->
  update_telemetry response now s = Raise AttributeError s.
Proof. intros H. open_decoder. rewrite H. reflexivity. Qed.

Ltac raise_now Hdf Hne :=
  eexists; split;
    [ intro; open_decoder; rewrite Hdf;
      try rewrite (match_nonempty _ _ _ Hne);
      repeat match goal with
        | E : lookup ?c _ = _ |- context [lookup ?c _] => rewrite E
        end;
      reflexivity
    | auto ].

Ltac column H c df Hdf Hne :=
  destruct (lookup c df) as [[?|?]|] eqn:?; cbn in H;
    try discriminate H; try solve [raise_now Hdf Hne].

(** A response that is not decodable raises, the same exception whatever
    the controller, and leaves the controller as it was. *)
Lemma update_telemetry_undecodable response now :
  decodable response = false ->
  exists e,
    (forall s, update_telemetry response now s = Raise e s)
    /\ (e = AttributeError \/ e = ValueError \/ e = KeyError \/ e = TypeError).
Proof.
  unfold decodable. intros H.
  destruct (aircraftState response) as [df|] eqn:Hdf.
  2: { exists AttributeError. split; [| auto].
       intro. open_decoder. rewrite Hdf. reflexivity. }
  destruct df as [|col cols] eqn:Hcols.
  { exists ValueError. split; [| auto].
    intro. open_decoder. rewrite Hdf. reflexivity. }
  rewrite <- Hcols in *.
  assert (Hne : df <> []) by (rewrite Hcols; discriminate).
  clear Hcols.
  unfold numeric, present in H.
  column H "m-airspeed-MPS" df Hdf Hne.
  column H "m-aircraftPositionX-MTR" df Hdf Hne.
  column H "m-aircraftPositionY-MTR" df Hdf Hne.
  column H "m-altitudeAGL-MTR" df Hdf Hne.
  column H "m-roll-DEG" df Hdf Hne.
  column H "m-inclination-DEG" df Hdf Hne.
  column H "m-azimuth-DEG" df Hdf Hne.
  all: column H "m-currentAircraftStatus" df Hdf Hne.
Qed.

Lemma update_telemetry_not_numeric response df now s :
  aircraftState response = Some df ->
  complete df = true ->
  decodable response = false ->
  update_telemetry response now s = Raise TypeError s.
Proof.
  unfold decodable, complete. intros Hdf Hc H. rewrite Hdf in H.
  open_decoder. rewrite Hdf.
  split_andb.
  rewrite match_nonempty by (eapply present_nonempty; eassumption).
  unfold numeric, present in *.
  repeat match goal with
    | Hp : match lookup ?c df with _ => _ end = true |- _ =>
        destruct (lookup c df) as [[?|?]|]; try discriminate Hp; clear Hp;
        cbn in *; try reflexivity; try discriminate
    end.
Qed.

(** ** One exchange *)

Lemma exchange_body_total v :
  (12 <= List.length v)%nat ->
  exists b, forall s, exchange_body v s = Return b s.
Proof.
  intros H. unfold exchange_body.
  do 12 (destruct v as [|? v]; [simpl in H; lia|]).
  eexists. intros s. reflexivity.
Qed.

Lemma exchange_body_short v s :
  (List.length v < 12)%nat -> exchange_body v s = Raise IndexError s.
Proof.
  intros H. unfold exchange_body.
  do 12 (destruct v as [|? v]; [reflexivity|]).
  simpl in H. lia.
Qed.

Lemma update_rc_value_returns response now s b :
  exchange_body (channel_values s) s = Return b s ->
  update_rc_value (Returns response) now s
  = try_except_Empty (update_telemetry response now)
      (logging ERROR exchange_error_message)
      (add_posted {| header := exchange_header; body := b |} s).
Proof.
  intros Hb. unfold update_rc_value, bind at 1 2, gets. rewrite Hb.
  reflexivity.
Qed.

Lemma update_rc_value_raises e now s b :
  exchange_body (channel_values s) s = Return b s ->
  update_rc_value (Raises e) now s
  = let s' := add_posted {| header := exchange_header; body := b |} s in
    match e with
    | Empty => Return tt (add_logged ERROR exchange_error_message s')
    | _ => Raise e s'
    end.
Proof.
  intros Hb. unfold update_rc_value, bind at 1 2, gets. rewrite Hb.
  destruct e; reflexivity.
Qed.

(** An exchange whose response is decodable returns; the row is stored and
    the log grows by it exactly when the vector is not the default. *)
Lemma exchange_decodable response now s :
  (12 <= List.length (channel_values s))%nat ->
  decodable response = true ->
  exists row b,
    update_rc_value (Returns response) now s = Return tt (exchanged b row s).
Proof.
  intros Hlen Hd.
  destruct (exchange_body_total _ Hlen) as [b Hb].
  rewrite (update_rc_value_returns _ _ _ _ (Hb s)).
  unfold try_except_Empty.
  destruct (update_telemetry_decodable response now
              (add_posted {| header := exchange_header; body := b |} s) Hd)
    as [row Hrow].
  rewrite Hrow. exists row, b. unfold exchanged. cbn.
  destruct (list_eqb (channel_values s) (channel_default s)); reflexivity.
Qed.

Lemma exchanged_channel_values b r s :
  channel_values (exchanged b r s) = channel_values s.
Proof.
  unfold exchanged.
  destruct (list_eqb (channel_values s) (channel_default s)); reflexivity.
Qed.

Lemma exchanged_channel_default b r s :
  channel_default (exchanged b r s) = channel_default s.
Proof.
  unfold exchanged.
  destruct (list_eqb (channel_values s) (channel_default s)); reflexivity.
Qed.

Lemma exchanged_telemetry_log b r s :
  telemetry_log (exchanged b r s)
  = (telemetry_log s
     ++ if list_eqb (channel_values s) (channel_default s) then [] else [r])%list.
Proof.
  unfold exchanged.
  destruct (list_eqb (channel_values s) (channel_default s)); simpl.
  - rewrite app_nil_r. reflexivity.
  - reflexivity.
Qed.

(** ** Runs of exchange cycles *)

Lemma run_cycle_decodable c response now s :
  (12 <= List.length (channel_values s))%nat ->
  decodable response = true ->
  exists row b s0,
    run_cycle c response now s = Return tt (exchanged b row s0)
    /\ channel_values s0 = cycle_vector (channel_values s) c
    /\ channel_default s0 = channel_default s
    /\ telemetry_log s0 = telemetry_log s.
Proof.
  intros Hlen Hd. destruct c as [vx vy vz yaw|]; unfold run_cycle.
  - rewrite convert_unfold. unfold bind, logging, modify.
    set (s0 := add_logged DEBUG "Channel Values: %s"
                 (set_channel_values (motion_channels vx vy vz yaw) s)).
    destruct (exchange_decodable response now s0) as (row & b & Hrun);
      [apply Nat.eq_le_incl; reflexivity | exact Hd |].
    exists row, b, s0. split; [exact Hrun|]. repeat split.
  - destruct (exchange_decodable response now s Hlen Hd) as (row & b & Hrun).
    exists row, b, s. split; [exact Hrun|]. repeat split.
Qed.

Lemma cycle_vector_length values c :
  (12 <= List.length values)%nat ->
  (12 <= List.length (cycle_vector values c))%nat.
Proof.
  intros H. destruct c; simpl; [apply Nat.eq_le_incl; reflexivity | exact H].
Qed.

(** A run of cycles whose responses are all decodable returns, and the log
    grows by one row per cycle that exchanged a vector other than the
    default. *)
Lemma run_cycles_decodable l : forall s,
  (12 <= List.length (channel_values s))%nat ->
  forallb decodable (responses_of l) = true ->
  exists s' rows,
    run_cycles l s = Return tt s'
    /\ telemetry_log s' = (telemetry_log s ++ rows)%list
    /\ List.length rows
       = active_cycles (channel_default s) (channel_values s) (cycles_of l)
    /\ channel_values s' = last_vector (channel_values s) (cycles_of l)
    /\ channel_default s' = channel_default s.
Proof.
  induction l as [|[[c response] now] l IH]; intros s Hlen Hall.
  - exists s, []. simpl. rewrite app_nil_r. repeat split.
  - simpl in Hall. apply andb_prop in Hall. destruct Hall as [Hd Hall].
    destruct (run_cycle_decodable c response now s Hlen Hd)
      as (row & b & s0 & Hrun & Hv & Hdef & Hlog).
    assert (Hv1 : channel_values (exchanged b row s0)
                  = cycle_vector (channel_values s) c)
      by (rewrite exchanged_channel_values; exact Hv).
    assert (Hd1 : channel_default (exchanged b row s0) = channel_default s)
      by (rewrite exchanged_channel_default; exact Hdef).
    destruct (IH (exchanged b row s0)) as (s' & rows & Hrest & Hlog' & Hn & Hv' & Hd').
    + rewrite Hv1. apply cycle_vector_length, Hlen.
    + exact Hall.
    + exists s'.
      exists ((if list_eqb (cycle_vector (channel_values s) c) (channel_default s)
               then [] else [row]) ++ rows)%list.
      simpl. unfold bind. rewrite Hrun. split; [exact Hrest|].
      rewrite Hlog', exchanged_telemetry_log, Hlog, Hv, Hdef, <- app_assoc.
      split; [reflexivity|].
      rewrite Hv', Hd', Hv1, Hd1, length_app, Hn, Hv1, Hd1.
      repeat split.
      destruct (list_eqb (cycle_vector (channel_values s) c) (channel_default s));
        reflexivity.
Qed.

(** C4. A run of N exchange cycles (motion commands and polls) whose
    responses decode appends exactly K records to the telemetry log, K being
    the number of cycles that ran with a channel vector other than the
    neutral one; a single exchange appends its record if and only if the
    stored channel vector is not equal to the neutral vector. *)
Theorem log_counts_active_cycles l s :
  (12 <= List.length (channel_values s))%nat ->
  forallb decodable (responses_of l) = true ->
  (exists s' rows,
      run_cycles l s = Return tt s'
      /\ telemetry_log s' = (telemetry_log s ++ rows)%list
      /\ List.length rows
         = active_cycles (channel_default s) (channel_values s) (cycles_of l))
  /\ (forall response now,
      decodable response = true ->
      exists s1 row,
        update_rc_value (Returns response) now s = Return tt s1
        /\ telemetry s1 = OneRow row
        /\ (list_eqb (channel_values s) (channel_default s) = false ->
            telemetry_log s1 = (telemetry_log s ++ [row])%list)
        /\ (list_eqb (channel_values s) (channel_default s) = true ->
            telemetry_log s1 = telemetry_log s)).
Proof.
  intros Hlen Hall. split.
  - destruct (run_cycles_decodable l s Hlen Hall)
      as (s' & rows & Hrun & Hlog & Hn & _).
    exists s', rows. repeat split; assumption.
  - intros response now Hd.
    destruct (exchange_decodable response now s Hlen Hd) as (row & b & Hrun).
    exists (exchanged b row s), row. split; [exact Hrun|].
    split.
    + unfold exchanged.
      destruct (list_eqb (channel_values s) (channel_default s)); reflexivity.
    + rewrite exchanged_telemetry_log.
      split; intros ->; [reflexivity | apply app_nil_r].
Qed.

Lemma log_counts_active_cycles_witness :
  (12 <= List.length (channel_values fresh))%nat
  /\ forallb decodable (responses_of sample_run) = true
  /\ active_cycles (channel_default fresh) (channel_values fresh)
       (cycles_of sample_run) = 2%nat
  /\ exists s' rows,
      run_cycles sample_run fresh = Return tt s'
      /\ telemetry_log s' = (telemetry_log fresh ++ rows)%list
      /\ List.length rows
         = active_cycles (channel_default fresh) (channel_values fresh)
             (cycles_of sample_run).
Proof.
  assert (Hlen : (12 <= List.length (channel_values fresh))%nat)
    by (apply Nat.eq_le_incl; reflexivity).
  assert (Hall : forallb decodable (responses_of sample_run) = true)
    by reflexivity.
  split; [exact Hlen|]. split; [exact Hall|]. split; [reflexivity|].
  exact (proj1 (log_counts_active_cycles sample_run fresh Hlen Hall)).
Defined.

(** ** Reset *)

Lemma reset_returns m t1 r2 t2 s :
  reset_aircraft (Returns m) t1 r2 t2 s
  = (update_rc_value r2 t2 ;; ret m) (reset_state t1 s).
Proof. reflexivity. Qed.

Lemma reset_raises e t1 r2 t2 s :
  reset_aircraft (Raises e) t1 r2 t2 s = Raise e (add_posted reset_request s).
Proof. reflexivity. Qed.

Lemma reset_stores m t1 r2 t2 s :
  channel_values (final (reset_aircraft (Returns m) t1 r2 t2 s))
  = startup_vector.
Proof.
  rewrite reset_returns.
  apply (keeps_bind (fun s' => channel_values s' = startup_vector)).
  - apply keeps_update_rc_value, stable_channel_values.
  - intros _. apply keeps_ret.
  - reflexivity.
Qed.

Lemma polls_cycles idle :
  cycles_of (polls idle) = repeat Poll (List.length idle).
Proof.
  induction idle as [|x idle IH]; simpl; [reflexivity|].
  f_equal. exact IH.
Qed.

Lemma polls_responses idle : responses_of (polls idle) = map fst idle.
Proof.
  induction idle as [|x idle IH]; simpl; [reflexivity|].
  f_equal. exact IH.
Qed.

Lemma active_polls default values n :
  active_cycles default values (repeat Poll n)
  = if list_eqb values default then 0%nat else n.
Proof.
  induction n as [|n IH]; simpl.
  - destruct (list_eqb values default); reflexivity.
  - rewrite IH. destruct (list_eqb values default); reflexivity.
Qed.

Lemma last_vector_polls values n : last_vector values (repeat Poll n) = values.
Proof. induction n as [|n IH]; simpl; [reflexivity | exact IH]. Qed.

(** C10. A reset whose request returns stores the startup vector
    [0.5, 0.5, 0, 0.5, 0, 0, 0, 1, 0, 0, 0, 0], which differs from the
    neutral vector at the throttle index 2 and nowhere else; so the
    exchange inside the reset and every idle exchange after it append a
    telemetry record, until a motion command stores the neutral vector
    again, after which idle exchanges append nothing. *)
Theorem reset_startup_samples_are_logged s m t1 response t2 idle idle' now :
  channel_default s = channel_default_init ->
  decodable response = true ->
  forallb decodable (map fst idle) = true ->
  forallb decodable (map fst idle') = true ->
  (forall i, (i < 12)%nat ->
     py_eqb (nth i startup_vector (PyInt 0)) (nth i channel_default_init (PyInt 0))
     = negb (Nat.eqb i 2))
  /\ (forall r t, channel_values (final (reset_aircraft (Returns m) t1 r t s))
                  = startup_vector)
  /\ exists s1 s2 s3 row rows,
      reset_aircraft (Returns m) t1 (Returns response) t2 s = Return m s1
      /\ channel_values s1 = startup_vector
      /\ telemetry_log s1 = (telemetry_log s ++ [row])%list
      /\ run_cycles (polls idle) s1 = Return tt s2
      /\ channel_values s2 = startup_vector
      /\ telemetry_log s2 = (telemetry_log s1 ++ rows)%list
      /\ List.length rows = List.length idle
      /\ run_cycles ((SetMotion 0 0 0 0, response, now) :: polls idle') s2
         = Return tt s3
      /\ telemetry_log s3 = telemetry_log s2.
Proof.
  intros Hdef Hd Hidle Hidle'. split; [|split].
  - intros i Hi.
    do 12 (destruct i as [|i]; [reflexivity|]). lia.
  - intros r t. apply reset_stores.
  - (* the exchange inside the reset *)
    destruct (exchange_decodable response t2 (reset_state t1 s))
      as (row & b & Hrun);
      [apply Nat.eq_le_incl; reflexivity | exact Hd |].
    set (s1 := exchanged b row (reset_state t1 s)).
    assert (Hv1 : channel_values s1 = startup_vector)
      by (unfold s1; rewrite exchanged_channel_values; reflexivity).
    assert (Hd1 : channel_default s1 = channel_default_init)
      by (unfold s1; rewrite exchanged_channel_default; exact Hdef).
    assert (Hl1 : telemetry_log s1 = (telemetry_log s ++ [row])%list).
    { unfold s1. rewrite exchanged_telemetry_log.
      change (channel_values (reset_state t1 s)) with startup_vector.
      change (channel_default (reset_state t1 s)) with (channel_default s).
      rewrite Hdef. reflexivity. }
    (* the idle exchanges after it *)
    destruct (run_cycles_decodable (polls idle) s1)
      as (s2 & rows & Hrun2 & Hl2 & Hn2 & Hv2 & Hd2).
    { rewrite Hv1. apply Nat.eq_le_incl; reflexivity. }
    { rewrite polls_responses. exact Hidle. }
    rewrite polls_cycles, last_vector_polls in Hv2.
    rewrite polls_cycles, active_polls, Hv1, Hd1 in Hn2.
    change (list_eqb startup_vector channel_default_init) with false in Hn2.
    (* a zero motion command, then idle exchanges again *)
    destruct (run_cycles_decodable
                ((SetMotion 0 0 0 0, response, now) :: polls idle') s2)
      as (s3 & rows3 & Hrun3 & Hl3 & Hn3 & _).
    { rewrite Hv2, Hv1. apply Nat.eq_le_incl; reflexivity. }
    { simpl. rewrite Hd, polls_responses. exact Hidle'. }
    simpl in Hn3. rewrite polls_cycles, active_polls, Hd2, Hd1 in Hn3.
    change (list_eqb (motion_channels 0 0 0 0) channel_default_init)
      with true in Hn3.
    destruct rows3; [|discriminate Hn3]. rewrite app_nil_r in Hl3.
    exists s1, s2, s3, row, rows.
    rewrite reset_returns. unfold bind. rewrite Hrun. fold s1.
    rewrite Hv2. repeat split; assumption.
Qed.

Lemma reset_startup_samples_are_logged_witness :
  channel_default fresh = channel_default_init
  /\ decodable good_response = true
  /\ exists s1 s2 s3 row rows,
      reset_aircraft (Returns good_response) 100.5 (Returns good_response) 100.75
        fresh = Return good_response s1
      /\ channel_values s1 = startup_vector
      /\ telemetry_log s1 = (telemetry_log fresh ++ [row])%list
      /\ run_cycles (polls [(good_response, 101%float); (good_response, 102%float)])
           s1 = Return tt s2
      /\ channel_values s2 = startup_vector
      /\ telemetry_log s2 = (telemetry_log s1 ++ rows)%list
      /\ List.length rows = 2%nat
      /\ run_cycles ((SetMotion 0 0 0 0, good_response, 103%float)
                       :: polls [(good_response, 104%float)]) s2
         = Return tt s3
      /\ telemetry_log s3 = telemetry_log s2.
Proof.
  split; [reflexivity|]. split; [reflexivity|].
  exact (proj2 (proj2
    (reset_startup_samples_are_logged fresh good_response 100.5 good_response
       100.75 [(good_response, 101%float); (good_response, 102%float)]
       [(good_response, 104%float)] 103
       eq_refl eq_refl eq_refl eq_refl))).
Defined.

(** ** What an exchange posts *)

Lemma keeps_decoder (Q : controller -> Prop) response now :
  (forall t s, Q s -> Q (set_telemetry t s)) ->
  (forall r s, Q s -> Q (to_csv r s)) ->
  keeps Q (update_telemetry response now).
Proof.
  intros Ht Hc. unfold update_telemetry.
  keeps_steps;
    try apply keeps_at_0; try apply keeps_round;
    try (apply keeps_modify; auto).
Qed.

Lemma exchange_posts r now s b :
  exchange_body (channel_values s) s = Return b s ->
  posted (final (update_rc_value r now s))
  = (posted s ++ [ {| header := exchange_header; body := b |} ])%list.
Proof.
  intros Hb. destruct r as [e|response].
  - rewrite (update_rc_value_raises e now s b Hb). destruct e; reflexivity.
  - rewrite (update_rc_value_returns response now s b Hb).
    apply (keeps_try
             (fun s' => posted s'
                        = (posted s ++ [ {| header := exchange_header; body := b |} ])%list)).
    + apply keeps_decoder; intros; assumption.
    + apply keeps_modify. intros; assumption.
    + reflexivity.
Qed.

Lemma motion_body vx vy vz yaw :
  exists b, forall s, exchange_body (motion_channels vx vy vz yaw) s = Return b s.
Proof. apply exchange_body_total. apply Nat.eq_le_incl. reflexivity. Qed.

Lemma convert_posts vx vy vz yaw r now s b :
  (forall s', exchange_body (motion_channels vx vy vz yaw) s' = Return b s') ->
  posted (final (convert_motion_in_channel_values vx vy vz yaw r now s))
  = (posted s ++ [ {| header := exchange_header; body := b |} ])%list.
Proof.
  intros Hb. rewrite convert_unfold. unfold bind at 1, logging, modify.
  rewrite (exchange_posts r now _ b); [reflexivity | apply Hb].
Qed.

Lemma link_enabled_app l l' enabled :
  link_enabled enabled (l ++ l') = link_enabled (link_enabled enabled l) l'.
Proof.
  revert enabled. induction l as [|r l IH]; intros enabled; simpl.
  - reflexivity.
  - apply IH.
Qed.

Lemma fresh_motion_differs :
  channel_values
    (final (convert_motion_in_channel_values 1 0 0 0 (Returns good_response)
              101 fresh))
  <> channel_values fresh.
Proof.
  intros H.
  apply (f_equal (fun v => list_eqb v channel_default_init)) in H.
  vm_compute in H. discriminate H.
Qed.

(** A motion command runs the same cycle whatever requests were posted
    before it, and leaves the state of the link as it was. *)
Lemma motion_in_any_link_state vx vy vz yaw r now s enabled :
  let o := convert_motion_in_channel_values vx vy vz yaw r now s in
  channel_values (final o) = motion_channels vx vy vz yaw
  /\ link_enabled enabled (posted (final o)) = link_enabled enabled (posted s)
  /\ exists b,
       posted (final o)
       = (posted s ++ [ {| header := exchange_header; body := b |} ])%list.
Proof.
  intros o.
  destruct (motion_body vx vy vz yaw) as [b Hb].
  assert (Hposted : posted (final o)
                    = (posted s ++ [ {| header := exchange_header; body := b |} ])%list)
    by (apply convert_posts, Hb).
  split; [apply convert_stores|]. split.
  - rewrite Hposted, link_enabled_app. reflexivity.
  - exists b. exact Hposted.
Qed.

(** C1, as stated, fails: on a controller that never posted a takeover
    request (Disconnected) a motion command does not fail; it returns,
    having posted an exchange request and replaced the channel vector. *)
Lemma motion_while_disconnected_counterexample :
  Disconnected fresh
  /\ (exists s',
        convert_motion_in_channel_values 1 0 0 0 (Returns good_response) 101 fresh
        = Return tt s'
        /\ List.length (posted s') = 1%nat
        /\ channel_values s' <> channel_values fresh)
  /\ forall e,
       convert_motion_in_channel_values 1 0 0 0 (Returns good_response) 101 fresh
       <> Raise e fresh.
Proof.
  split; [reflexivity|]. split.
  - eexists. split; [reflexivity|]. split; [reflexivity|].
    exact fresh_motion_differs.
  - intros e H. discriminate H.
Qed.

(** C1, amended. The controller keeps no connection state and has no
    invalid-state error: a motion command issued while Disconnected runs
    the same cycle as in any other state.  It stores the converted vector,
    posts exactly one exchange request carrying it, leaves the link
    Disconnected, and returns when the response decodes. *)
Theorem motion_while_disconnected vx vy vz yaw r now s :
  Disconnected s ->
  let o := convert_motion_in_channel_values vx vy vz yaw r now s in
  channel_values (final o) = motion_channels vx vy vz yaw
  /\ Disconnected (final o)
  /\ (exists b,
        exchange_body (motion_channels vx vy vz yaw) s = Return b s
        /\ posted (final o)
           = (posted s ++ [ {| header := exchange_header; body := b |} ])%list)
  /\ (forall response,
        r = Returns response -> decodable response = true ->
        exists s', o = Return tt s').
Proof.
  intros Hdis o.
  destruct (motion_body vx vy vz yaw) as [b Hb].
  assert (Hposted : posted (final o)
                    = (posted s ++ [ {| header := exchange_header; body := b |} ])%list)
    by (apply convert_posts, Hb).
  split; [apply convert_stores|]. split; [|split].
  - unfold Disconnected in *. rewrite Hposted, link_enabled_app, Hdis.
    reflexivity.
  - exists b. split; [apply Hb | exact Hposted].
  - intros response -> Hd. unfold o. rewrite convert_unfold.
    unfold bind at 1, logging, modify.
    match goal with
    | |- exists s', update_rc_value _ _ ?s0 = _ =>
        destruct (exchange_decodable response now s0) as (row & b' & Hrun);
          [apply Nat.eq_le_incl; reflexivity | exact Hd |]
    end.
    eexists. exact Hrun.
Qed.

Lemma motion_while_disconnected_witness :
  Disconnected fresh
  /\ let o := convert_motion_in_channel_values 1 0 0 0 (Returns good_response)
                101 fresh in
     channel_values (final o) = motion_channels 1 0 0 0
     /\ Disconnected (final o).
Proof.
  assert (H : Disconnected fresh) by reflexivity.
  split; [exact H|].
  pose proof (motion_while_disconnected 1 0 0 0 (Returns good_response) 101
                fresh H) as (Hv & Hd & _).
  split; [exact Hv | exact Hd].
Defined.

(** ** A cycle whose transport fails *)

Lemma convert_transport_raises vx vy vz yaw e now s b :
  (forall s', exchange_body (motion_channels vx vy vz yaw) s' = Return b s') ->
  convert_motion_in_channel_values vx vy vz yaw (Raises e) now s
  = let s' := add_posted {| header := exchange_header; body := b |}
                (add_logged DEBUG "Channel Values: %s"
                   (set_channel_values (motion_channels vx vy vz yaw) s)) in
    match e with
    | Empty => Return tt (add_logged ERROR exchange_error_message s')
    | _ => Raise e s'
    end.
Proof.
  intros Hb. rewrite convert_unfold. unfold bind at 1, logging, modify.
  rewrite (update_rc_value_raises e now _ b); [reflexivity | apply Hb].
Qed.

(** C5, as stated, fails: the transport of a motion command raises, and the
    stored channel vector is no longer the one stored before the call. *)
Lemma failed_motion_counterexample :
  exists s',
    convert_motion_in_channel_values 1 0 0 0 (Raises RequestException) 101 fresh
    = Raise RequestException s'
    /\ list_eqb (channel_values s') (channel_values fresh) = false
    /\ channel_values s' <> channel_values fresh.
Proof.
  eexists. split; [reflexivity|]. split; [reflexivity|].
  intros H.
  apply (f_equal (fun v => list_eqb v channel_default_init)) in H.
  vm_compute in H. discriminate H.
Qed.

(** C5, amended. A motion command whose transport exchange fails leaves
    the current telemetry, the telemetry log and the time origin exactly as
    they were; the channel vector, assigned before the exchange, is already
    the converted one. *)
Theorem failed_motion_keeps_telemetry vx vy vz yaw e now s :
  let o := convert_motion_in_channel_values vx vy vz yaw (Raises e) now s in
  telemetry (final o) = telemetry s
  /\ telemetry_log (final o) = telemetry_log s
  /\ start (final o) = start s
  /\ channel_default (final o) = channel_default s
  /\ channel_values (final o) = motion_channels vx vy vz yaw.
Proof.
  intros o. unfold o.
  destruct (motion_body vx vy vz yaw) as [b Hb].
  rewrite (convert_transport_raises vx vy vz yaw e now s b Hb).
  destruct e; cbn; repeat split.
Qed.

(** ** The effects of a motion command *)

(** C6, as stated, fails: the method that converts a motion intent also
    posts a request, stores telemetry, appends to the telemetry log and
    writes a log line; and it raises when the transport does. *)
Lemma conversion_effects_counterexample :
  (exists s',
      convert_motion_in_channel_values 1 0 0 0 (Returns good_response) 101 fresh
      = Return tt s'
      /\ posted fresh = [] /\ List.length (posted s') = 1%nat
      /\ telemetry fresh = BlankRow /\ telemetry s' <> BlankRow
      /\ telemetry_log fresh = [] /\ List.length (telemetry_log s') = 1%nat
      /\ logged fresh = [] /\ logged s' = [(DEBUG, "Channel Values: %s")])
  /\ (exists s',
      convert_motion_in_channel_values 1 0 0 0 (Raises RequestException) 101 fresh
      = Raise RequestException s').
Proof.
  split.
  - eexists. split; [reflexivity|].
    repeat (split; [reflexivity|]).
    split; [discriminate|].
    repeat (split; [reflexivity|]). reflexivity.
  - eexists. reflexivity.
Qed.

Lemma convert_logs vx vy vz yaw r now s :
  exists rest,
    logged (final (convert_motion_in_channel_values vx vy vz yaw r now s))
    = (logged s ++ (DEBUG, "Channel Values: %s") :: rest)%list.
Proof.
  rewrite convert_unfold. unfold bind at 1, logging, modify.
  apply (keeps_update_rc_value
           (fun s' => exists rest,
                logged s' = (logged s ++ (DEBUG, "Channel Values: %s") :: rest)%list)).
  - split; intros; try assumption.
    destruct H as [rest Hrest]. exists (rest ++ [(l, msg)])%list.
    simpl. rewrite Hrest, <- app_assoc. reflexivity.
  - exists []. reflexivity.
Qed.

(** C6, amended. The channel vector is a function of the motion intent
    alone and computing it raises nothing; the method that computes it is
    not free of effects: it stores the vector, writes a debug log line,
    posts exactly one exchange request and then decodes the response.  It
    leaves the neutral vector and the time origin alone, and it returns
    whenever the transport returns a response that decodes. *)
Theorem conversion_determinism_and_effects vx vy vz yaw :
  (forall r now s r' now' s',
      channel_values (final (convert_motion_in_channel_values vx vy vz yaw r now s))
      = channel_values
          (final (convert_motion_in_channel_values vx vy vz yaw r' now' s')))
  /\ forall r now s,
      let o := convert_motion_in_channel_values vx vy vz yaw r now s in
      channel_values (final o) = motion_channels vx vy vz yaw
      /\ channel_default (final o) = channel_default s
      /\ start (final o) = start s
      /\ (exists b,
            posted (final o)
            = (posted s ++ [ {| header := exchange_header; body := b |} ])%list)
      /\ (exists rest,
            logged (final o)
            = (logged s ++ (DEBUG, "Channel Values: %s") :: rest)%list)
      /\ (forall response,
            r = Returns response -> decodable response = true ->
            o = Return tt (final o)).
Proof.
  split.
  - intros r now s r' now' s'. rewrite !convert_stores. reflexivity.
  - intros r now s o. unfold o.
    split; [apply convert_stores|].
    split.
    { apply (keeps_convert (fun s' => channel_default s' = channel_default s));
        [apply stable_channel_default | intros; assumption | reflexivity]. }
    split.
    { apply (keeps_convert (fun s' => start s' = start s));
        [apply stable_start | intros; assumption | reflexivity]. }
    split.
    { destruct (motion_body vx vy vz yaw) as [b Hb].
      exists b. apply convert_posts, Hb. }
    split; [apply convert_logs|].
    intros response -> Hd. rewrite !convert_as_exchange.
    match goal with
    | |- update_rc_value _ _ ?s0 = _ =>
        destruct (exchange_decodable response now s0) as (row & b' & Hrun);
          [apply Nat.eq_le_incl; reflexivity | exact Hd |]
    end.
    rewrite Hrun. reflexivity.
Qed.

(** ** Responses that do not decode *)

(** The numbers of a decodable response go into the record as they are,
    through [round]: the decoder looks at no value. *)
Lemma update_telemetry_copies response now s :
  decodable response = true ->
  exists row,
    update_telemetry response now s = Return tt (recorded row s)
    /\ forall df,
         aircraftState response = Some df ->
         (forall x, lookup "m-airspeed-MPS" df = Some (CNum x) ->
                    Airspeed row = Round x 2)
         /\ (forall x, lookup "m-aircraftPositionX-MTR" df = Some (CNum x) ->
                       Aircraft_X row = Round x 2)
         /\ (forall x, lookup "m-aircraftPositionY-MTR" df = Some (CNum x) ->
                       Aircraft_Y row = Round x 2)
         /\ (forall x, lookup "m-altitudeAGL-MTR" df = Some (CNum x) ->
                       Altitude_above_Ground row = Round x 2)
         /\ (forall x, lookup "m-roll-DEG" df = Some (CNum x) ->
                       Roll row = Round x 2)
         /\ (forall x, lookup "m-inclination-DEG" df = Some (CNum x) ->
                       Pitch row = Round x 2)
         /\ (forall x, lookup "m-azimuth-DEG" df = Some (CNum x) ->
                       Yaw row = Round x 2).
Proof.
  unfold decodable, recorded. intros H. open_decoder.
  destruct (aircraftState response) as [df|]; [|discriminate H].
  split_andb.
  rewrite match_nonempty by (eapply present_nonempty; eassumption).
  unfold numeric, present in *.
  repeat match goal with
    | H : match lookup ?c df with _ => _ end = true |- _ =>
        destruct (lookup c df) as [[?|?]|] eqn:?; try discriminate H; clear H
    end.
  all: eexists; split;
    [ simpl; destruct (list_eqb (channel_values s) (channel_default s));
      reflexivity
    | intros df' Hdf'; injection Hdf' as <-;
      repeat split; intros; simpl; congruence ].
Qed.

(** C2, as stated, fails three ways.  A response without the aircraft-state
    element makes [update_telemetry] raise [AttributeError], one whose
    element has no children [ValueError], and a state field read as text
    [TypeError]: there is no decode error of the program's own, and none of
    these is caught by the handler of [update_rc_value], so they leave the
    exchange and the motion command as uncaught exceptions.  And an empty
    field, read as NaN, is not refused at all: the record is stored and
    logged with NaN in it. *)
Lemma undecodable_response_counterexample :
  aircraftState stateless_response = None
  /\ update_telemetry stateless_response 101 fresh = Raise AttributeError fresh
  /\ (exists s', update_rc_value (Returns stateless_response) 101 fresh
                 = Raise AttributeError s')
  /\ (exists s', convert_motion_in_channel_values 1 0 0 0
                   (Returns stateless_response) 101 fresh
                 = Raise AttributeError s')
  /\ lookup "m-airspeed-MPS" sample_state = Some (CNum 0)
  /\ update_telemetry garbled_response 101 fresh = Raise TypeError fresh
  /\ (exists s', update_rc_value (Returns garbled_response) 101 fresh
                 = Raise TypeError s')
  /\ update_telemetry childless_response 101 fresh = Raise ValueError fresh
  /\ (exists s', update_rc_value (Returns childless_response) 101 fresh
                 = Raise ValueError s')
  /\ (exists s' record,
        convert_motion_in_channel_values 1 0 0 0 (Returns nan_response) 101 fresh
        = Return tt s'
        /\ telemetry s' = OneRow record
        /\ telemetry_log s' = [record]
        /\ Airspeed record = Round nan 2).
Proof.
  repeat split; try reflexivity; try (eexists; reflexivity).
  do 2 eexists. repeat split.
Qed.

(** C2, amended. The program has no decode error of its own.
    [update_telemetry] raises [AttributeError] when the aircraft-state
    element is absent, [ValueError] when the element has no children, and
    [TypeError] when the element has all eight fields and one of the seven
    rounded ones was read as text; whenever a response does not decode the
    exception is one of these or [KeyError], the controller is left as it
    was, and the exchange that received the response leaves the current
    telemetry and the telemetry log as they were.  A field read as a
    number is not looked at: whatever the numbers are, NaN included, they
    are rounded into the record, which is stored and logged like any
    other. *)
Theorem undecodable_response_raises response now s :
  (decodable response = false ->
   exists e,
     update_telemetry response now s = Raise e s
     /\ (e = AttributeError \/ e = ValueError \/ e = KeyError \/ e = TypeError)
     /\ ((12 <= List.length (channel_values s))%nat ->
         let s' := final (update_rc_value (Returns response) now s) in
         telemetry s' = telemetry s /\ telemetry_log s' = telemetry_log s))
  /\ (aircraftState response = None ->
      update_telemetry response now s = Raise AttributeError s)
  /\ (aircraftState response = Some [] ->
      update_telemetry response now s = Raise ValueError s)
  /\ (forall df,
      aircraftState response = Some df -> complete df = true ->
      decodable response = false ->
      update_telemetry response now s = Raise TypeError s)
  /\ (decodable response = true ->
      exists record,
        update_telemetry response now s = Return tt (recorded record s)
        /\ forall df,
             aircraftState response = Some df ->
             (forall x, lookup "m-airspeed-MPS" df = Some (CNum x) ->
                        Airspeed record = Round x 2)
             /\ (forall x, lookup "m-aircraftPositionX-MTR" df = Some (CNum x) ->
                           Aircraft_X record = Round x 2)
             /\ (forall x, lookup "m-aircraftPositionY-MTR" df = Some (CNum x) ->
                           Aircraft_Y record = Round x 2)
             /\ (forall x, lookup "m-altitudeAGL-MTR" df = Some (CNum x) ->
                           Altitude_above_Ground record = Round x 2)
             /\ (forall x, lookup "m-roll-DEG" df = Some (CNum x) ->
                           Roll record = Round x 2)
             /\ (forall x, lookup "m-inclination-DEG" df = Some (CNum x) ->
                           Pitch record = Round x 2)
             /\ (forall x, lookup "m-azimuth-DEG" df = Some (CNum x) ->
                           Yaw record = Round x 2)).
Proof.
  split; [| split; [| split; [| split]]].
  - intros Hd.
    destruct (update_telemetry_undecodable response now Hd) as (e & He & Hcase).
    exists e. split; [apply He|]. split; [exact Hcase|].
    intros Hlen. destruct (exchange_body_total _ Hlen) as [b Hb].
    rewrite (update_rc_value_returns response now s b (Hb s)).
    unfold try_except_Empty. rewrite He.
    destruct e; cbn; split; reflexivity.
  - apply update_telemetry_absent.
  - intros Hdf. open_decoder. rewrite Hdf. reflexivity.
  - intros df Hdf Hc Hd.
    apply (update_telemetry_not_numeric response df); assumption.
  - apply update_telemetry_copies.
Qed.

Lemma undecodable_response_raises_witness :
  decodable garbled_response = false
  /\ update_telemetry garbled_response 101 fresh = Raise TypeError fresh
  /\ decodable nan_response = true
  /\ exists record,
       update_telemetry nan_response 101 fresh = Return tt (recorded record fresh)
       /\ Airspeed record = Round nan 2.
Proof.
  pose proof (undecodable_response_raises garbled_response 101 fresh)
    as (_ & _ & _ & Htype & _).
  pose proof (undecodable_response_raises nan_response 101 fresh)
    as (_ & _ & _ & _ & Hnan).
  split; [reflexivity|].
  split.
  { apply (Htype (("m-airspeed-MPS", CStr "fast") :: sample_state));
      reflexivity. }
  split; [reflexivity|].
  destruct (Hnan eq_refl) as (record & Hrun & Hcopy).
  exists record. split; [exact Hrun|].
  destruct (Hcopy _ eq_refl) as (Hair & _).
  apply Hair. reflexivity.
Defined.

(** ** The channel list of an exchange request *)

Lemma clash_strip p : forall t s,
  clash p t = true -> strip_prefix p (t ++ s) = None.
Proof.
  induction p as [|a p IH]; intros [|b t] s H; simpl in *; try discriminate H.
  destruct (Ascii.eqb a b); [apply IH, H | reflexivity].
Qed.

Lemma channel_items_skip t : forall s,
  item_free t = true -> channel_items (t ++ s) = channel_items s.
Proof.
  induction t as [|c t IH]; intros s H; [reflexivity|].
  cbn [item_free] in H. apply andb_prop in H. destruct H as [Hc Ht].
  change (String c t ++ s) with (String c (t ++ s)).
  cbn [channel_items].
  change (String c (t ++ s)) with (String c t ++ s).
  rewrite (clash_strip _ _ s Hc). apply IH, Ht.
Qed.

Lemma no_lt_item_free t : no_lt t = true -> item_free t = true.
Proof.
  induction t as [|c t IH]; intros H; [reflexivity|].
  cbn [no_lt] in H. apply andb_prop in H. destruct H as [Hc Ht].
  cbn [item_free]. rewrite (IH Ht), andb_true_r.
  cbn [clash]. rewrite Ascii.eqb_sym.
  destruct (Ascii.eqb c "<"); [discriminate Hc | reflexivity].
Qed.

Lemma text_before_tag_stops t : forall r,
  no_lt t = true ->
  text_before_tag (t ++ String "<" r) = (t, String "<" r).
Proof.
  induction t as [|c t IH]; intros r H; [reflexivity|].
  cbn [no_lt] in H. apply andb_prop in H. destruct H as [Hc Ht].
  change (String c t ++ String "<" r) with (String c (t ++ String "<" r)).
  cbn [text_before_tag].
  destruct (Ascii.eqb c "<"); [discriminate Hc|].
  rewrite (IH r Ht). reflexivity.
Qed.

(** One [<item>] element, with the indentation before it. *)
Lemma channel_items_item t rest :
  no_lt t = true ->
  channel_items ("        <item>" ++ t ++ "</item>" ++ rest)
  = t :: channel_items rest.
Proof.
  intros Ht.
  change ("        <item>" ++ t ++ "</item>" ++ rest)
    with ("        " ++ String "<" ("item>" ++ t ++ "</item>" ++ rest)).
  rewrite channel_items_skip by reflexivity.
  cbn [channel_items].
  change (strip_prefix "<item>" (String "<" ("item>" ++ t ++ "</item>" ++ rest)))
    with (Some (t ++ String "<" ("/item>" ++ rest))).
  cbv iota beta.
  rewrite (text_before_tag_stops t _ Ht).
  change (is_prefix "</item>" (String "<" ("/item>" ++ rest))) with true.
  cbv iota beta. f_equal.
  rewrite (channel_items_skip "item>") by reflexivity.
  rewrite (channel_items_skip t) by (apply no_lt_item_free, Ht).
  apply (channel_items_skip "</item>"). reflexivity.
Qed.

Lemma no_lt_uint d : no_lt (NilEmpty.string_of_uint d) = true.
Proof. induction d; simpl; auto. Qed.

Lemma no_lt_int z : no_lt (NilZero.string_of_int (Z.to_int z)) = true.
Proof.
  unfold NilZero.string_of_int, NilZero.string_of_uint.
  destruct (Z.to_int z) as [d|d]; destruct d; simpl; auto using no_lt_uint.
Qed.

Lemma all_some_parsed {A B : Type} (f : B -> option A) (g : A -> B) l :
  Forall (fun v => f (g v) = Some v) l ->
  all_some (map f (map g l)) = Some l.
Proof.
  induction 1 as [|v l Hv _ IH]; simpl; [reflexivity|].
  rewrite Hv, IH. reflexivity.
Qed.

Section RoundTrip.
Variable float_repr : float -> string.
Hypothesis repr_no_lt : forall x, no_lt (float_repr x) = true.

Lemma no_lt_str v : no_lt (py_str float_repr v) = true.
Proof. destruct v; simpl; [apply no_lt_int | apply repr_no_lt]. Qed.

Lemma render_item v rest :
  render float_repr (item v ++ rest)
  = "        <item>" ++ py_str float_repr v ++ "</item>"
    ++ render float_repr rest.
Proof. reflexivity. Qed.

Lemma channel_items_render_item v rest :
  channel_items (render float_repr (item v ++ rest))
  = py_str float_repr v :: channel_items (render float_repr rest).
Proof. rewrite render_item. apply channel_items_item, no_lt_str. Qed.

Lemma channel_items_body v0 v1 v2 v3 v4 v5 v6 v7 v8 v9 v10 v11 :
  channel_items
    (render float_repr
       ([ Text exchange_head ]
        ++ item v0 ++ item v1 ++ item v2 ++ item v3 ++ item v4 ++ item v5
        ++ item v6 ++ item v7 ++ item v8 ++ item v9 ++ item v10 ++ item v11
        ++ [ Text exchange_tail ]))
  = map (py_str float_repr) [v0; v1; v2; v3; v4; v5; v6; v7; v8; v9; v10; v11].
Proof.
  change (render float_repr ([Text exchange_head] ++ ?l))
    with (exchange_head ++ render float_repr l).
  rewrite channel_items_skip by reflexivity.
  rewrite !channel_items_render_item.
  change (render float_repr [Text exchange_tail]) with (exchange_tail ++ "").
  rewrite channel_items_skip by reflexivity.
  reflexivity.
Qed.
End RoundTrip.

(** C8. For every channel vector of 12 values, the body of the exchange
    request built from it carries the 12 formatted values as its ordered
    item list, and re-parsing that list yields the same 12 values in the
    same order.  The formatting of a float is Python's: it is assumed to
    write no [<], and the reading of a number is assumed to read back what
    the formatting wrote for the values of the vector. *)
Theorem channel_list_round_trip
    (float_repr : float -> string) (parse_number : string -> option pynum)
    (cv : list pynum) (s : controller) :
  (forall x, no_lt (float_repr x) = true) ->
  Forall (fun v => parse_number (py_str float_repr v) = Some v) cv ->
  List.length cv = 12%nat ->
  exists body,
    exchange_body cv s = Return body s
    /\ channel_items (render float_repr body) = map (py_str float_repr) cv
    /\ parse_channel_list parse_number (render float_repr body) = Some cv.
Proof.
  intros Hrepr Hparse Hlen.
  destruct cv as [|v0 [|v1 [|v2 [|v3 [|v4 [|v5 [|v6 [|v7 [|v8 [|v9 [|v10
    [|v11 [|]]]]]]]]]]]]]; try discriminate Hlen.
  eexists. split; [reflexivity|].
  assert (Hitems := channel_items_body float_repr Hrepr
                      v0 v1 v2 v3 v4 v5 v6 v7 v8 v9 v10 v11).
  split; [exact Hitems|].
  unfold parse_channel_list. rewrite Hitems.
  apply all_some_parsed, Hparse.
Qed.

Lemma sample_repr_no_lt x : no_lt (sample_repr x) = true.
Proof.
  unfold sample_repr.
  destruct (PrimFloat.eqb x 0.5); [reflexivity|].
  destruct (PrimFloat.eqb x 0); reflexivity.
Qed.

Lemma channel_list_round_trip_witness :
  (forall x, no_lt (sample_repr x) = true)
  /\ Forall (fun v => sample_parse (py_str sample_repr v) = Some v)
       channel_default_init
  /\ List.length channel_default_init = 12%nat
  /\ exists body,
      exchange_body channel_default_init fresh = Return body fresh
      /\ channel_items (render sample_repr body)
         = ["0.5"; "0.5"; "0.5"; "0.5"; "0.0"; "0.0"; "0.0"; "1";
            "0.0"; "0.0"; "0.0"; "0.0"]
      /\ parse_channel_list sample_parse (render sample_repr body)
         = Some channel_default_init.
Proof.
  assert (H2 : Forall (fun v => sample_parse (py_str sample_repr v) = Some v)
                 channel_default_init)
    by (repeat constructor).
  split; [exact sample_repr_no_lt|]. split; [exact H2|]. split; [reflexivity|].
  exact (channel_list_round_trip sample_repr sample_parse channel_default_init
           fresh sample_repr_no_lt H2 eq_refl).
Defined.

(* ------------------------------------------------------------------ *)
(** * Further properties of the controller *)

(** ** The exchange, whatever the transport does *)

(** X1. An exchange with fewer than 12 stored channel values raises
    [IndexError] while the request body is built: nothing is posted and
    the controller is left exactly as it was. *)
Theorem short_vector_raises_before_posting r now s :
  (List.length (channel_values s) < 12)%nat ->
  update_rc_value r now s = Raise IndexError s.
Proof.
  intros H. unfold update_rc_value, bind at 1 2, gets.
  rewrite (exchange_body_short _ s H). reflexivity.
Qed.

Lemma short_vector_raises_before_posting_witness :
  (List.length (channel_values short_vector) < 12)%nat
  /\ update_rc_value (Returns good_response) 101 short_vector
     = Raise IndexError short_vector.
Proof.
  assert (H : (List.length (channel_values short_vector) < 12)%nat)
    by (simpl; lia).
  split; [exact H|].
  exact (short_vector_raises_before_posting (Returns good_response) 101
           short_vector H).
Defined.

(** X2. An exchange with at least 12 stored values posts exactly one
    [ExchangeData] request, whatever the transport replies, and never
    touches the channel vector, the neutral vector or the time origin. *)
Theorem exchange_posts_once_and_keeps_vector r now s :
  (12 <= List.length (channel_values s))%nat ->
  let s' := final (update_rc_value r now s) in
  channel_values s' = channel_values s
  /\ channel_default s' = channel_default s
  /\ start s' = start s
  /\ exists b,
       posted s' = (posted s ++ [ {| header := exchange_header; body := b |} ])%list.
Proof.
  intros Hlen s'. unfold s'.
  split; [| split; [| split]].
  - apply (keeps_update_rc_value (fun x => channel_values x = channel_values s));
      [apply stable_channel_values | reflexivity].
  - apply (keeps_update_rc_value (fun x => channel_default x = channel_default s));
      [apply stable_channel_default | reflexivity].
  - apply (keeps_update_rc_value (fun x => start x = start s));
      [apply stable_start | reflexivity].
  - destruct (exchange_body_total _ Hlen) as [b Hb].
    exists b. apply exchange_posts, Hb.
Qed.

Lemma exchange_posts_once_and_keeps_vector_witness :
  (12 <= List.length (channel_values fresh))%nat
  /\ let s' := final (update_rc_value (Raises RequestException) 101 fresh) in
     channel_values s' = channel_values fresh
     /\ channel_default s' = channel_default fresh
     /\ start s' = start fresh
     /\ exists b,
          posted s'
          = (posted fresh ++ [ {| header := exchange_header; body := b |} ])%list.
Proof.
  assert (H : (12 <= List.length (channel_values fresh))%nat)
    by (simpl; lia).
  split; [exact H|].
  exact (exchange_posts_once_and_keeps_vector (Raises RequestException) 101
           fresh H).
Defined.

Lemma exchanged_logged b r s : logged (exchanged b r s) = logged s.
Proof.
  unfold exchanged.
  destruct (list_eqb (channel_values s) (channel_default s)); reflexivity.
Qed.

Lemma exchange_returned_logs_nothing response now s :
  (12 <= List.length (channel_values s))%nat ->
  logged (final (update_rc_value (Returns response) now s)) = logged s.
Proof.
  intros Hlen. destruct (decodable response) eqn:Hd.
  - destruct (exchange_decodable response now s Hlen Hd) as (row & b & Hrun).
    rewrite Hrun. apply exchanged_logged.
  - destruct (exchange_body_total _ Hlen) as [b Hb].
    rewrite (update_rc_value_returns response now s b (Hb s)).
    destruct (update_telemetry_undecodable response now Hd) as (e & He & Hcase).
    unfold try_except_Empty. rewrite He.
    destruct Hcase as [-> | [-> | [-> | ->]]]; reflexivity.
Qed.

(** X3. The handler of the exchange catches [queue.Empty] and nothing
    else.  When the transport raises [Empty] the exchange returns normally
    with one error line logged; any other exception of the transport leaves
    the exchange uncaught and logs nothing; either way the telemetry and
    the telemetry log stay as they were.  Decoding a response never raises
    [Empty], so an exchange whose transport returned logs nothing. *)
Theorem exchange_handler_catches_only_Empty e now s :
  (12 <= List.length (channel_values s))%nat ->
  let o := update_rc_value (Raises e) now s in
  telemetry (final o) = telemetry s
  /\ telemetry_log (final o) = telemetry_log s
  /\ (e = Empty ->
      o = Return tt (final o)
      /\ logged (final o) = (logged s ++ [(ERROR, exchange_error_message)])%list)
  /\ (e <> Empty -> o = Raise e (final o) /\ logged (final o) = logged s)
  /\ forall response,
       logged (final (update_rc_value (Returns response) now s)) = logged s.
Proof.
  intros Hlen o. unfold o.
  destruct (exchange_body_total _ Hlen) as [b Hb].
  rewrite (update_rc_value_raises e now s b (Hb s)).
  split; [destruct e; reflexivity|].
  split; [destruct e; reflexivity|].
  split; [intros ->; split; reflexivity|].
  split.
  - intros He. destruct e; try (split; reflexivity). contradiction He. reflexivity.
  - intros response. apply exchange_returned_logs_nothing, Hlen.
Qed.

Lemma exchange_handler_catches_only_Empty_witness :
  (12 <= List.length (channel_values fresh))%nat
  /\ let o := update_rc_value (Raises Empty) 101 fresh in
     telemetry (final o) = telemetry fresh
     /\ telemetry_log (final o) = telemetry_log fresh
     /\ o = Return tt (final o)
     /\ logged (final o) = (logged fresh ++ [(ERROR, exchange_error_message)])%list.
Proof.
  assert (H : (12 <= List.length (channel_values fresh))%nat)
    by (simpl; lia).
  split; [exact H|].
  pose proof (exchange_handler_catches_only_Empty Empty 101 fresh H)
    as (Ht & Hl & HE & _).
  destruct (HE eq_refl) as [Ho Hlog].
  repeat split; assumption.
Defined.

(** X4. After a motion command whose transport failed, the next exchange
    posts the very request the failed command posted: the vector it stored
    is sent again by the next poll. *)
Theorem failed_motion_is_resent_by_next_poll vx vy vz yaw e now r' now' s :
  let s1 := final (convert_motion_in_channel_values vx vy vz yaw (Raises e) now s) in
  exists req,
    posted s1 = (posted s ++ [req])%list
    /\ soapaction req = Some "ExchangeData"
    /\ posted (final (update_rc_value r' now' s1)) = (posted s ++ [req; req])%list.
Proof.
  intros s1.
  destruct (motion_body vx vy vz yaw) as [b Hb].
  exists {| header := exchange_header; body := b |}.
  assert (H1 : posted s1
               = (posted s ++ [ {| header := exchange_header; body := b |} ])%list)
    by (apply convert_posts, Hb).
  split; [exact H1|]. split; [reflexivity|].
  rewrite (exchange_posts r' now' s1 b).
  - rewrite H1, <- app_assoc. reflexivity.
  - unfold s1. rewrite convert_stores. apply Hb.
Qed.

(** ** What the decoder records *)

(** X5. The record decoded from a response takes its time stamp from the
    clock and the time origin, rounded to 3 places, airspeed, position,
    altitude and roll from the columns of the same name, pitch from the
    inclination and yaw from the azimuth, each rounded to 2 places, and the
    flight status as it came; the record is stored, and appended to the log
    exactly when the channel vector is not the neutral one. *)
Theorem decoded_record response df now s airspeed x y agl roll pitch yaw status :
  aircraftState response = Some df ->
  lookup "m-airspeed-MPS" df = Some (CNum airspeed) ->
  lookup "m-aircraftPositionX-MTR" df = Some (CNum x) ->
  lookup "m-aircraftPositionY-MTR" df = Some (CNum y) ->
  lookup "m-altitudeAGL-MTR" df = Some (CNum agl) ->
  lookup "m-roll-DEG" df = Some (CNum roll) ->
  lookup "m-inclination-DEG" df = Some (CNum pitch) ->
  lookup "m-azimuth-DEG" df = Some (CNum yaw) ->
  lookup "m-currentAircraftStatus" df = Some status ->
  let record :=
    {| T := Round (PrimFloat.sub now (start s)) 3;
       Airspeed := Round airspeed 2;
       Aircraft_X := Round x 2;
       Aircraft_Y := Round y 2;
       Altitude_above_Ground := Round agl 2;
       Roll := Round roll 2;
       Pitch := Round pitch 2;
       Yaw := Round yaw 2;
       Flying := status |} in
  update_telemetry response now s
  = Return tt
      (if list_eqb (channel_values s) (channel_default s)
       then set_telemetry (OneRow record) s
       else to_csv record (set_telemetry (OneRow record) s)).
Proof.
  intros Hdf H1 H2 H3 H4 H5 H6 H7 H8 record. unfold record.
  open_decoder. rewrite Hdf.
  rewrite (match_nonempty _ _ _ (lookup_nonempty _ _ _ H1)).
  rewrite H1, H2, H3, H4, H5, H6, H7, H8. simpl.
  destruct (list_eqb (channel_values s) (channel_default s)); reflexivity.
Qed.

Lemma decoded_record_witness :
  update_telemetry good_response 101 fresh
  = Return tt
      (set_telemetry
         (OneRow {| T := Round (PrimFloat.sub 101 (start fresh)) 3;
                    Airspeed := Round 0 2;
                    Aircraft_X := Round 1.5 2;
                    Aircraft_Y := Round 2 2;
                    Altitude_above_Ground := Round 0.25 2;
                    Roll := Round 0 2;
                    Pitch := Round 0 2;
                    Yaw := Round 90 2;
                    Flying := CStr "CAS-WAITING" |})
         fresh).
Proof.
  exact (decoded_record good_response sample_state 101 fresh
           0 1.5 2 0.25 0 0 90 (CStr "CAS-WAITING")
           eq_refl eq_refl eq_refl eq_refl eq_refl eq_refl eq_refl eq_refl
           eq_refl).
Defined.

(** X6. When the aircraft-state element is there with at least one field,
    none of its rounded columns holds text and one of the eight columns is
    missing, decoding raises [KeyError] and leaves the controller as it
    was. *)
Theorem missing_column_raises_KeyError response df now s :
  aircraftState response = Some df ->
  df <> [] ->
  no_text df = true ->
  complete df = false ->
  update_telemetry response now s = Raise KeyError s.
Proof.
  unfold no_text, complete. intros Hdf Hne Hn Hc.
  open_decoder. rewrite Hdf, (match_nonempty _ _ _ Hne).
  split_andb. unfold not_text, present in *.
  repeat match goal with
    | Hp : match lookup ?c df with _ => _ end = true |- _ =>
        destruct (lookup c df) as [[?|?]|]; try discriminate Hp; clear Hp;
        cbn in *; try reflexivity
    end.
  destruct (lookup "m-currentAircraftStatus" df); [discriminate Hc | reflexivity].
Qed.

Lemma missing_column_raises_KeyError_witness :
  let df := [ ("m-airspeed-MPS", CNum 3); ("m-roll-DEG", CNum 0) ] in
  df <> [] /\ no_text df = true /\ complete df = false
  /\ update_telemetry {| aircraftState := Some df |} 101 fresh
     = Raise KeyError fresh.
Proof.
  intros df.
  assert (Hne : df <> []) by discriminate.
  split; [exact Hne|]. split; [reflexivity|]. split; [reflexivity|].
  exact (missing_column_raises_KeyError {| aircraftState := Some df |} df 101
           fresh eq_refl Hne eq_refl eq_refl).
Defined.

(** ** Reset *)

Lemma bind_return {A B : Type} (m : M A) (k : A -> M B) s a s' :
  m s = Return a s' -> bind m k s = k a s'.
Proof. intros H. unfold bind. rewrite H. reflexivity. Qed.

Lemma bind_raise {A B : Type} (m : M A) (k : A -> M B) s e s' :
  m s = Raise e s' -> bind m k s = Raise e s'.
Proof. intros H. unfold bind. rewrite H. reflexivity. Qed.

Lemma update_telemetry_stamped response now s :
  decodable response = true ->
  exists row,
    T row = Round (PrimFloat.sub now (start s)) 3
    /\ update_telemetry response now s
       = Return tt
           (if list_eqb (channel_values s) (channel_default s)
            then set_telemetry (OneRow row) s
            else to_csv row (set_telemetry (OneRow row) s)).
Proof.
  unfold decodable. intros H. open_decoder.
  destruct (aircraftState response) as [df|]; [|discriminate H].
  split_andb.
  rewrite match_nonempty by (eapply present_nonempty; eassumption).
  unfold numeric, present in *.
  repeat match goal with
    | H : match lookup ?c df with _ => _ end = true |- _ =>
        destruct (lookup c df) as [[?|?]|]; try discriminate H; clear H
    end.
  all: eexists; split;
    [| simpl; destruct (list_eqb (channel_values s) (channel_default s));
       reflexivity ];
    reflexivity.
Qed.

Lemma exchange_stamped response now s :
  (12 <= List.length (channel_values s))%nat ->
  decodable response = true ->
  exists row b,
    T row = Round (PrimFloat.sub now (start s)) 3
    /\ update_rc_value (Returns response) now s = Return tt (exchanged b row s).
Proof.
  intros Hlen Hd.
  destruct (exchange_body_total _ Hlen) as [b Hb].
  rewrite (update_rc_value_returns _ _ _ _ (Hb s)).
  unfold try_except_Empty.
  destruct (update_telemetry_stamped response now
              (add_posted {| header := exchange_header; body := b |} s) Hd)
    as (row & HT & Hrow).
  rewrite Hrow. exists row, b. split; [exact HT|].
  unfold exchanged. cbn.
  destruct (list_eqb (channel_values s) (channel_default s)); reflexivity.
Qed.

Lemma exchanged_posted b r s :
  posted (exchanged b r s)
  = (posted s ++ [ {| header := exchange_header; body := b |} ])%list.
Proof.
  unfold exchanged.
  destruct (list_eqb (channel_values s) (channel_default s)); reflexivity.
Qed.

Lemma exchanged_telemetry b r s : telemetry (exchanged b r s) = OneRow r.
Proof.
  unfold exchanged.
  destruct (list_eqb (channel_values s) (channel_default s)); reflexivity.
Qed.

Lemma exchanged_start b r s : start (exchanged b r s) = start s.
Proof.
  unfold exchanged.
  destruct (list_eqb (channel_values s) (channel_default s)); reflexivity.
Qed.

Lemma reset_state_length t s :
  (12 <= List.length (channel_values (reset_state t s)))%nat.
Proof. apply Nat.eq_le_incl. reflexivity. Qed.

Lemma reset_succeeds m t1 response t2 s :
  decodable response = true ->
  exists row b,
    T row = Round (PrimFloat.sub t2 t1) 3
    /\ reset_aircraft (Returns m) t1 (Returns response) t2 s
       = Return m (exchanged b row (reset_state t1 s)).
Proof.
  intros Hd.
  destruct (exchange_stamped response t2 (reset_state t1 s)
              (reset_state_length t1 s) Hd) as (row & b & HT & Hrun).
  exists row, b. split; [exact HT|].
  rewrite reset_returns, (bind_return _ _ _ _ _ Hrun). reflexivity.
Qed.

(** X7. A reset is not all or nothing.  When its own request raises, the
    exception leaves the method at once: no exchange follows and the
    telemetry, the time origin and the channel vector are not reset.  When
    the request returns and the transport of the exchange raises, the
    telemetry is already emptied, the time origin already moved and the
    startup vector already stored; the exception leaves the method unless
    it is [queue.Empty], in which case the reset returns the response of
    its request after one error line. *)
Theorem reset_is_not_all_or_nothing s t1 t2 :
  (forall e r2,
      reset_aircraft (Raises e) t1 r2 t2 s = Raise e (add_posted reset_request s)
      /\ telemetry (add_posted reset_request s) = telemetry s
      /\ start (add_posted reset_request s) = start s
      /\ channel_values (add_posted reset_request s) = channel_values s)
  /\ (forall m e,
      exists b s',
        s' = add_posted {| header := exchange_header; body := b |} (reset_state t1 s)
        /\ telemetry s' = NoRows /\ start s' = t1
        /\ channel_values s' = startup_vector
        /\ posted s'
           = (posted s ++ [ reset_request;
                            {| header := exchange_header; body := b |} ])%list
        /\ reset_aircraft (Returns m) t1 (Raises e) t2 s
           = match e with
             | Empty => Return m (add_logged ERROR exchange_error_message s')
             | _ => Raise e s'
             end).
Proof.
  split.
  - intros e r2. repeat split.
  - intros m e.
    destruct (exchange_body_total _ (reset_state_length t1 s)) as [b Hb].
    exists b. eexists. split; [reflexivity|].
    split; [reflexivity|]. split; [reflexivity|]. split; [reflexivity|].
    split; [simpl; rewrite <- app_assoc; reflexivity|].
    rewrite reset_returns. unfold bind.
    rewrite (update_rc_value_raises e t2 _ b (Hb _)).
    destruct e; reflexivity.
Qed.

(** X8. A reset whose request returns and whose exchange decodes returns
    the response of the reset request, not that of the exchange; it posts
    the reset request and then one exchange request; the time origin is the
    clock read at the reset, and the record it stores is stamped with the
    time from there to the exchange. *)
Theorem reset_returns_its_response s m t1 response t2 :
  decodable response = true ->
  exists row b s',
    reset_aircraft (Returns m) t1 (Returns response) t2 s = Return m s'
    /\ start s' = t1
    /\ telemetry s' = OneRow row
    /\ T row = Round (PrimFloat.sub t2 t1) 3
    /\ channel_values s' = startup_vector
    /\ posted s'
       = (posted s ++ [ reset_request;
                        {| header := exchange_header; body := b |} ])%list.
Proof.
  intros Hd.
  destruct (reset_succeeds m t1 response t2 s Hd) as (row & b & HT & Hrun).
  exists row, b. eexists. split; [exact Hrun|].
  rewrite exchanged_start, exchanged_telemetry, exchanged_channel_values,
    exchanged_posted.
  repeat split; try assumption.
  simpl. rewrite <- app_assoc. reflexivity.
Qed.

Lemma reset_returns_its_response_witness :
  decodable good_response = true
  /\ exists row b s',
      reset_aircraft (Returns stateless_response) 100.5 (Returns good_response)
        100.75 fresh = Return stateless_response s'
      /\ start s' = 100.5%float
      /\ telemetry s' = OneRow row
      /\ T row = Round (PrimFloat.sub 100.75 100.5) 3
      /\ channel_values s' = startup_vector
      /\ posted s'
         = (posted fresh ++ [ reset_request;
                              {| header := exchange_header; body := b |} ])%list.
Proof.
  split; [reflexivity|].
  exact (reset_returns_its_response fresh stateless_response 100.5
           good_response 100.75 eq_refl).
Defined.

(** ** Entering and leaving the context *)

Lemma enter_after_enable m1 r2 t2 r3 t3 r4 t4 s :
  __enter__ (Returns m1) r2 t2 r3 t3 r4 t4 s
  = try_except_Empty
      (reset_aircraft r2 t2 r3 t3 ;; update_rc_value r4 t4 ;; ret true)
      (logging ERROR enter_error_message ;; ret false)
      (add_posted enable_request (add_logged INFO "Attempting connection" s)).
Proof. reflexivity. Qed.

Lemma exit_unfold r1 t1 r2 t2 r3 s :
  __exit__ r1 t1 r2 t2 r3 s
  = try_except_Empty
      (reset_aircraft r1 t1 r2 t2 ;; disable r3 ;; ret tt)
      (logging ERROR exit_error_message)
      (add_logged DEBUG "attempting to close connection" s).
Proof. reflexivity. Qed.

(** X9. Entering the context with a transport that returns and responses
    that decode returns the controller itself, after exactly four requests
    in this order: takeover, reset, the exchange of the reset and one more
    exchange.  The link is then Enabled, the startup vector is stored, the
    time origin is the clock read at the reset, and, the startup vector not
    being the neutral one, both exchanges have appended a record to the
    telemetry log. *)
Theorem enter_connects m1 m2 t2 response3 t3 response4 t4 s :
  decodable response3 = true ->
  decodable response4 = true ->
  channel_default s = channel_default_init ->
  exists b3 b4 row3 row4 s',
    __enter__ (Returns m1) (Returns m2) t2 (Returns response3) t3
      (Returns response4) t4 s = Return true s'
    /\ posted s'
       = (posted s ++ [ enable_request; reset_request;
                        {| header := exchange_header; body := b3 |};
                        {| header := exchange_header; body := b4 |} ])%list
    /\ link_enabled false (posted s') = true
    /\ channel_values s' = startup_vector
    /\ start s' = t2
    /\ telemetry s' = OneRow row4
    /\ telemetry_log s' = (telemetry_log s ++ [row3; row4])%list
    /\ logged s' = (logged s ++ [(INFO, "Attempting connection")])%list.
Proof.
  intros Hd3 Hd4 Hdef.
  set (s1 := add_posted enable_request (add_logged INFO "Attempting connection" s)).
  destruct (reset_succeeds m2 t2 response3 t3 s1 Hd3) as (row3 & b3 & _ & Hreset).
  set (s2 := exchanged b3 row3 (reset_state t2 s1)) in *.
  assert (Hv2 : channel_values s2 = startup_vector)
    by (unfold s2; rewrite exchanged_channel_values; reflexivity).
  assert (Hdef2 : channel_default s2 = channel_default_init)
    by (unfold s2; rewrite exchanged_channel_default; exact Hdef).
  destruct (exchange_decodable response4 t4 s2) as (row4 & b4 & Hrun);
    [rewrite Hv2; apply Nat.eq_le_incl; reflexivity | exact Hd4 |].
  exists b3, b4, row3, row4, (exchanged b4 row4 s2).
  split.
  { rewrite enter_after_enable. fold s1. unfold try_except_Empty.
    rewrite (bind_return _ _ _ _ _ Hreset), (bind_return _ _ _ _ _ Hrun).
    reflexivity. }
  assert (Hposted : posted (exchanged b4 row4 s2)
                    = (posted s ++ [ enable_request; reset_request;
                                     {| header := exchange_header; body := b3 |};
                                     {| header := exchange_header; body := b4 |} ])%list).
  { rewrite exchanged_posted. unfold s2. rewrite exchanged_posted. simpl.
    rewrite <- !app_assoc. reflexivity. }
  split; [exact Hposted|].
  split; [rewrite Hposted, link_enabled_app; reflexivity|].
  split; [rewrite exchanged_channel_values; exact Hv2|].
  split; [rewrite exchanged_start; unfold s2; rewrite exchanged_start; reflexivity|].
  split; [apply exchanged_telemetry|].
  split.
  { rewrite exchanged_telemetry_log, Hv2, Hdef2.
    unfold s2. rewrite exchanged_telemetry_log.
    change (channel_values (reset_state t2 s1)) with startup_vector.
    change (channel_default (reset_state t2 s1)) with (channel_default s).
    rewrite Hdef.
    change (list_eqb startup_vector channel_default_init) with false.
    cbv iota. simpl. rewrite <- app_assoc. reflexivity. }
  rewrite exchanged_logged. unfold s2. rewrite exchanged_logged. reflexivity.
Qed.

Lemma enter_connects_witness :
  decodable good_response = true
  /\ channel_default fresh = channel_default_init
  /\ exists b3 b4 row3 row4 s',
      __enter__ (Returns stateless_response) (Returns stateless_response) 100.5
        (Returns good_response) 100.75 (Returns good_response) 101 fresh
      = Return true s'
      /\ posted s'
         = (posted fresh ++ [ enable_request; reset_request;
                              {| header := exchange_header; body := b3 |};
                              {| header := exchange_header; body := b4 |} ])%list
      /\ link_enabled false (posted s') = true
      /\ channel_values s' = startup_vector
      /\ start s' = 100.5%float
      /\ telemetry s' = OneRow row4
      /\ telemetry_log s' = (telemetry_log fresh ++ [row3; row4])%list
      /\ logged s' = (logged fresh ++ [(INFO, "Attempting connection")])%list.
Proof.
  split; [reflexivity|]. split; [reflexivity|].
  exact (enter_connects stateless_response stateless_response 100.5
           good_response 100.75 good_response 101 fresh
           eq_refl eq_refl eq_refl).
Defined.

(** X10. When the takeover request of [__enter__] raises, nothing else is
    posted and nothing is reset.  After [queue.Empty] the method logs one
    error line and returns [None] instead of the controller; any other
    exception leaves it uncaught. *)
Theorem enter_gives_up_after_failed_takeover
    e r2 t2 r3 t3 r4 t4 s :
  let o := __enter__ (Raises e) r2 t2 r3 t3 r4 t4 s in
  posted (final o) = (posted s ++ [enable_request])%list
  /\ channel_values (final o) = channel_values s
  /\ telemetry (final o) = telemetry s
  /\ start (final o) = start s
  /\ telemetry_log (final o) = telemetry_log s
  /\ (e = Empty ->
      o = Return false (final o)
      /\ logged (final o)
         = (logged s ++ [ (INFO, "Attempting connection");
                          (ERROR, enter_error_message) ])%list)
  /\ (e <> Empty -> o = Raise e (final o)).
Proof.
  intros o. unfold o.
  destruct e; cbn; repeat split; intros; try congruence;
    rewrite <- app_assoc; reflexivity.
Qed.

(** X11. Leaving the context with a transport that returns and a response
    that decodes posts the reset request, one exchange and the
    restore-controller request, in this order, and leaves the link
    Disconnected with the startup vector stored. *)
Theorem exit_disconnects m t1 response t2 m3 s :
  decodable response = true ->
  exists b row s',
    __exit__ (Returns m) t1 (Returns response) t2 (Returns m3) s = Return tt s'
    /\ posted s'
       = (posted s ++ [ reset_request;
                        {| header := exchange_header; body := b |};
                        disable_request ])%list
    /\ Disconnected s'
    /\ channel_values s' = startup_vector
    /\ telemetry s' = OneRow row.
Proof.
  intros Hd.
  set (s0 := add_logged DEBUG "attempting to close connection" s).
  destruct (reset_succeeds m t1 response t2 s0 Hd) as (row & b & _ & Hreset).
  set (s1 := exchanged b row (reset_state t1 s0)) in *.
  exists b, row, (add_posted disable_request s1).
  split.
  { rewrite exit_unfold. fold s0. unfold try_except_Empty.
    rewrite (bind_return _ _ _ _ _ Hreset). reflexivity. }
  assert (Hposted : posted (add_posted disable_request s1)
                    = (posted s ++ [ reset_request;
                                     {| header := exchange_header; body := b |};
                                     disable_request ])%list).
  { simpl. unfold s1. rewrite exchanged_posted. simpl.
    rewrite <- !app_assoc. reflexivity. }
  split; [exact Hposted|].
  split; [unfold Disconnected; rewrite Hposted, link_enabled_app; reflexivity|].
  split.
  - simpl. unfold s1. rewrite exchanged_channel_values. reflexivity.
  - simpl. unfold s1. apply exchanged_telemetry.
Qed.

Lemma exit_disconnects_witness :
  decodable good_response = true
  /\ exists b row s',
      __exit__ (Returns stateless_response) 200 (Returns good_response) 200.5
        (Returns stateless_response) fresh = Return tt s'
      /\ posted s'
         = (posted fresh ++ [ reset_request;
                              {| header := exchange_header; body := b |};
                              disable_request ])%list
      /\ Disconnected s'
      /\ channel_values s' = startup_vector
      /\ telemetry s' = OneRow row.
Proof.
  split; [reflexivity|].
  exact (exit_disconnects stateless_response 200 good_response 200.5
           stateless_response fresh eq_refl).
Defined.

(** X12. When the reset request of [__exit__] raises, the
    restore-controller request is never posted: the only request posted is
    the reset request, so a link that was Enabled stays Enabled.  After
    [queue.Empty] the method logs one error line and returns; any other
    exception leaves it uncaught. *)
Theorem exit_skips_disable_after_failed_reset e t1 r2 t2 r3 s :
  let o := __exit__ (Raises e) t1 r2 t2 r3 s in
  posted (final o) = (posted s ++ [reset_request])%list
  /\ link_enabled false (posted (final o)) = link_enabled false (posted s)
  /\ channel_values (final o) = channel_values s
  /\ (e = Empty -> o = Return tt (final o))
  /\ (e <> Empty -> o = Raise e (final o)).
Proof.
  intros o. unfold o.
  assert (Hposted : posted (final (__exit__ (Raises e) t1 r2 t2 r3 s))
                    = (posted s ++ [reset_request])%list)
    by (destruct e; reflexivity).
  split; [exact Hposted|].
  split; [rewrite Hposted, link_enabled_app; reflexivity|].
  destruct e; cbn; repeat split; intros; congruence.
Qed.

(** ** What no call does *)

Lemma keeps_setters (Q : controller -> Prop) (c : call) :
  (forall r s, Q s -> Q (add_posted r s)) ->
  (forall l msg s, Q s -> Q (add_logged l msg s)) ->
  (forall t s, Q s -> Q (set_telemetry t s)) ->
  (forall r s, Q s -> Q (to_csv r s)) ->
  (forall t s, Q s -> Q (set_start t s)) ->
  (forall v s, Q s -> Q (set_channel_values v s)) ->
  keeps Q (exec c).
Proof.
  intros H1 H2 H3 H4 H5 H6.
  apply keeps_exec; auto. split; assumption.
Qed.

(** X13. No call of the controller, returned or raised, takes anything
    back: the requests posted, the telemetry log and the application log
    only grow at their end, and the neutral vector, the endpoint, the
    channel count and the maximum velocity are never assigned again. *)
Theorem calls_only_append c s :
  let s' := final (exec c s) in
  (exists requests, posted s' = (posted s ++ requests)%list)
  /\ (exists rows, telemetry_log s' = (telemetry_log s ++ rows)%list)
  /\ (exists lines, logged s' = (logged s ++ lines)%list)
  /\ channel_default s' = channel_default s
  /\ realflight_url s' = realflight_url s
  /\ channels s' = channels s
  /\ max_velocity s' = max_velocity s.
Proof.
  intros s'. unfold s'.
  split; [| split; [| split]].
  - apply (keeps_setters
             (fun x => exists requests, posted x = (posted s ++ requests)%list));
      try (intros; assumption).
    + intros r x [l Hl]. exists (l ++ [r])%list. simpl.
      rewrite Hl, <- app_assoc. reflexivity.
    + exists []. rewrite app_nil_r. reflexivity.
  - apply (keeps_setters
             (fun x => exists rows, telemetry_log x = (telemetry_log s ++ rows)%list));
      try (intros; assumption).
    + intros r x [l Hl]. exists (l ++ [r])%list. simpl.
      rewrite Hl, <- app_assoc. reflexivity.
    + exists []. rewrite app_nil_r. reflexivity.
  - apply (keeps_setters
             (fun x => exists lines, logged x = (logged s ++ lines)%list));
      try (intros; assumption).
    + intros lv msg x [l Hl]. exists (l ++ [(lv, msg)])%list. simpl.
      rewrite Hl, <- app_assoc. reflexivity.
    + exists []. rewrite app_nil_r. reflexivity.
  - apply (keeps_setters
             (fun x => channel_default x = channel_default s
                       /\ realflight_url x = realflight_url s
                       /\ channels x = channels s
                       /\ max_velocity x = max_velocity s));
      try (intros; assumption).
    repeat split.
Qed.

(** ** The requests the class posts *)

Section RequestsOfTheClass.
Variable P : request -> Prop.
Variable Q : controller -> Prop.
Hypothesis HQ : StableFor P Q.
Hypothesis P_enable : P enable_request.
Hypothesis P_disable : P disable_request.
Hypothesis P_reset : P reset_request.
Hypothesis P_exchange : forall b, P {| header := exchange_header; body := b |}.

Lemma for_logging l msg : keeps Q (logging l msg).
Proof. apply keeps_modify. intros s. apply (for_logged P Q HQ). Qed.

Lemma for_post h b r :
  P {| header := h; body := b |} -> keeps Q (post_soap_request h b r).
Proof.
  intros HP. unfold post_soap_request. keeps_steps.
  apply keeps_modify. intros s. apply (for_posted P Q HQ), HP.
Qed.

Lemma for_update_rc_value r now : keeps Q (update_rc_value r now).
Proof.
  unfold update_rc_value. keeps_steps.
  - apply keeps_exchange_body.
  - apply for_post, P_exchange.
  - apply keeps_decoder.
    + apply (for_telemetry P Q HQ).
    + apply (for_to_csv P Q HQ).
  - apply for_logging.
Qed.

Lemma for_reset_aircraft r1 t1 r2 t2 : keeps Q (reset_aircraft r1 t1 r2 t2).
Proof.
  unfold reset_aircraft. keeps_steps.
  - apply for_post, P_reset.
  - apply keeps_modify. intros s. apply (for_telemetry P Q HQ).
  - apply keeps_modify. intros s. apply (for_start P Q HQ).
  - apply keeps_modify. intros s. apply (for_values P Q HQ).
  - apply for_update_rc_value.
Qed.

Lemma for_enable r : keeps Q (enable r).
Proof. unfold enable. keeps_steps. apply for_post, P_enable. Qed.

Lemma for_disable r : keeps Q (disable r).
Proof. unfold disable. keeps_steps. apply for_post, P_disable. Qed.

Lemma for_exec c : keeps Q (exec c).
Proof.
  destruct c; unfold exec, convert_motion_in_channel_values, __enter__, __exit__;
    keeps_steps;
    try apply for_logging; try apply for_enable; try apply for_disable;
    try apply for_reset_aircraft; try apply for_update_rc_value;
    try (apply keeps_modify; intros s;
         first [apply (for_values P Q HQ) | apply (for_start P Q HQ)]).
Qed.
End RequestsOfTheClass.

(** X14. Every request a controller has posted, in any reachable state,
    carries the XML content type and one of the four operations
    [InjectUAVControllerInterface], [ResetAircraft], [ExchangeData] and
    [RestoreOriginalControllerDevice]: no method posts anything else. *)
Theorem only_four_operations s :
  reachable s -> forallb class_request (posted s) = true.
Proof.
  induction 1 as [uri mv now | s c Hs IH]; [reflexivity|].
  apply (for_exec (fun r => class_request r = true)
           (fun x => forallb class_request (posted x) = true));
    try reflexivity; [| exact IH].
  split; intros; try assumption.
  simpl. rewrite forallb_app. simpl.
  match goal with
  | Hr : class_request _ = true, Hl : forallb _ _ = true |- _ =>
      rewrite Hr, Hl
  end.
  reflexivity.
Qed.

Lemma only_four_operations_witness :
  let s := final (exec (Exit (Returns good_response) 103 (Raises Empty) 104
                          (Returns stateless_response))
             (final (exec (ConvertMotion 1 0 0 0 (Returns good_response) 102)
                (final (exec (Enter (Returns good_response)
                                (Returns good_response) 100.5
                                (Returns good_response) 100.75
                                (Returns good_response) 101) fresh))))) in
  reachable s /\ List.length (posted s) = 8%nat
  /\ forallb class_request (posted s) = true.
Proof.
  intros s.
  assert (Hs : reachable s).
  { unfold s. do 3 apply reachable_call. apply reachable_init. }
  split; [exact Hs|]. split; [reflexivity|].
  exact (only_four_operations s Hs).
Defined.

(** ** Idle commands *)

(** X17. A motion command counts as idle, and its telemetry is kept out of
    the log, exactly when all four stick values it computes are [==] 0.5.
    A command with a NaN in any of its four fields is therefore never
    idle. *)
Theorem motion_idle_iff_sticks_neutral (vx vy vz yaw : float) :
  (let '(roll, pitch, throttle, yaw') := stick_values vx vy vz yaw in
   list_eqb (motion_channels vx vy vz yaw) channel_default_init
   = (PrimFloat.eqb roll 0.5 && PrimFloat.eqb pitch 0.5
      && PrimFloat.eqb throttle 0.5 && PrimFloat.eqb yaw' 0.5)%bool)
  /\ list_eqb (motion_channels nan vy vz yaw) channel_default_init = false
  /\ list_eqb (motion_channels vx nan vz yaw) channel_default_init = false
  /\ list_eqb (motion_channels vx vy nan yaw) channel_default_init = false
  /\ list_eqb (motion_channels vx vy vz nan) channel_default_init = false.
Proof.
  split; [| split; [| split; [| split]]].
  - unfold motion_channels, channel_default_init.
    rewrite stick_values_binary64.
    cbn [list_eqb py_eqb].
    change (PrimFloat.eqb 0%float 0%float) with true.
    change (Z.eqb 1 1) with true. cbn [andb].
    rewrite !andb_true_r, !andb_assoc. reflexivity.
  - unfold motion_channels, channel_default_init.
    rewrite stick_values_binary64.
    cbn [list_eqb py_eqb].
    match goal with |- (?a && _)%bool = false => destruct a; reflexivity end.
  - reflexivity.
  - unfold motion_channels, channel_default_init.
    rewrite stick_values_binary64.
    cbn [list_eqb py_eqb].
    repeat match goal with
      | |- (?a && _)%bool = false => destruct a; cbn [andb]; try reflexivity
      end.
  - unfold motion_channels, channel_default_init.
    rewrite stick_values_binary64.
    cbn [list_eqb py_eqb].
    repeat match goal with
      | |- (?a && _)%bool = false => destruct a; cbn [andb]; try reflexivity
      end.
Qed.
